(** * Multi-label disease classification: data preparation

    A shallow embedding of the data-preparation code of the repository
    (code normaliser, label vocabulary, yearly sequence builder) and the
    properties of its specification.

    Layout: Part I holds the model, one block per source file; Part II
    holds the lemmas and the theorems of the specification; Part III holds
    further properties of the code. *)

From Stdlib Require Import ZArith NArith Lia Permutation.
From stdpp Require Import base list gmap strings sorting.

Set Warnings "-clear-no-such-hyp".

Local Open Scope Z_scope.

(* ===================================================================== *)
(** * Part I. The model                                                   *)
(* ===================================================================== *)

(** ** Python values and exceptions *)

(** A Python [str] is a sequence of Unicode code points. *)
Definition pystr := list N.

(** The objects a table cell handed to the normalisers can hold: a string,
    [None], an integer, or the missing-value marker of pandas. *)
Inductive pyobj :=
  | PyStr (s : pystr)
  | PyNone
  | PyInt (z : Z)
  | PyNaN.

(** The exceptions the modelled code can raise. *)
Inductive exn :=
  | KeyError (key : string)
  | NameError (name : string)
  | ValueError (msg : string)
  | TypeError (msg : string)
  | IndexError (msg : string).

(** A computation returns a value or raises. *)
Inductive result (A : Type) :=
  | Ok (a : A)
  | Raise (e : exn).
Arguments Ok {A} a.
Arguments Raise {A} e.

#[global] Instance result_ret : MRet result := fun A a => Ok a.
#[global] Instance result_bind : MBind result := fun A B f m =>
  match m with Ok a => f a | Raise e => Raise e end.

(** [isinstance(code, str)] *)
Definition isinstance_str (o : pyobj) : bool :=
  match o with PyStr _ => true | _ => false end.

(** ** src/process/icd_normalize.py and scripts/convert_mimic_to_events.py *)

(** The code points [str.strip()] removes at both ends: the ones CPython
    classifies as white space. *)
Definition is_whitespace (c : N) : bool :=
  ((9 <=? c) && (c <=? 13) || (28 <=? c) && (c <=? 32) ||
   (c =? 133) || (c =? 160) || (c =? 5760) ||
   (8192 <=? c) && (c <=? 8202) || (c =? 8232) || (c =? 8233) ||
   (c =? 8239) || (c =? 8287) || (c =? 12288))%N.

Fixpoint lstrip (s : pystr) : pystr :=
  match s with
  | [] => []
  | c :: s' => if is_whitespace c then lstrip s' else s
  end.

Definition rstrip (s : pystr) : pystr := rev (lstrip (rev s)).

(** [s.strip()] *)
Definition strip (s : pystr) : pystr := rstrip (lstrip s).

(** [s.replace(old, "")] for a one-character [old]: every occurrence of the
    code point is deleted. *)
Definition replace_empty (old : N) (s : pystr) : pystr :=
  List.filter (fun c => negb (c =? old)%N) s.

(** The character class [A-Z0-9\.] *)
Definition class_AZ09dot (c : N) : bool :=
  ((65 <=? c) && (c <=? 90) || (48 <=? c) && (c <=? 57) || (c =? 46))%N.

(** The character class [A-Za-z0-9\.] *)
Definition class_AZaz09dot (c : N) : bool :=
  ((65 <=? c) && (c <=? 90) || (97 <=? c) && (c <=? 122) ||
   (48 <=? c) && (c <=? 57) || (c =? 46))%N.

(** [re.sub(r"[^cls]", "", s)]: every code point outside the class is
    deleted, the others stay in order. *)
Definition re_sub_outside (cls : N -> bool) (s : pystr) : pystr :=
  List.filter cls s.

Section Normalizers.

(** [str.upper()] maps each code point to its full upper-case mapping,
    one or more code points (the table is Unicode's, not the
    repository's). *)
Variable upper_cp : N -> list N.

Definition upper (s : pystr) : pystr := flat_map upper_cp s.

(** icd_normalize.py, [normalize_icd]. [system] is accepted and not
    looked at. *)
Definition normalize_icd (code : pyobj) (system : string) (dotless : bool)
  : pystr :=
  match code with
  | PyStr code =>
      let c := replace_empty 32 (upper (strip code)) in
      let c := re_sub_outside class_AZ09dot c in
      let c := if dotless then replace_empty 46 c else c in
      c
  | _ => []
  end.

(** icd_normalize.py, [is_valid_diag]: [bool(code)] of a string. *)
Definition is_valid_diag (code : pystr) : bool :=
  match code with [] => false | _ => true end.

(** convert_mimic_to_events.py, [norm_code]. *)
Definition norm_code (code : pyobj) (dotless : bool) : pystr :=
  match code with
  | PyStr code =>
      let c := re_sub_outside class_AZaz09dot (upper (strip code)) in
      if dotless then replace_empty 46 c else c
  | _ => []
  end.

End Normalizers.

(** An upper-casing table that is right on ASCII and leaves every other
    code point alone; used to run the normalisers on ASCII codes. *)
Definition ascii_upper_cp (c : N) : list N :=
  [if ((97 <=? c) && (c <=? 122))%N then (c - 32)%N else c].

(** Code points of a string literal. *)
Definition cps (s : string) : pystr :=
  map Ascii.N_of_ascii (String.list_ascii_of_string s).

(** ** Tables and the pandas operations the code uses *)

(** A row of the events table, with the columns the two builders read. *)
Record Event := {
  patient_id : string;
  visit_date : string;
  code_norm : option string   (* [None] is a missing value *)
}.

(** [Series.unique()] and [Series.nunique()]: the distinct values, in the
    order of their first appearance, and their number. *)
Fixpoint unique `{EqDecision A} (l : list A) : list A :=
  match l with
  | [] => []
  | x :: l' => x :: filter (fun y => y <> x) (unique l')
  end.

Definition nunique `{EqDecision A} (l : list A) : Z :=
  Z.of_nat (length (unique l)).

(** Python's order on strings, code point by code point. *)
Definition string_le (a b : string) : Prop := String.leb a b = true.

#[global] Instance string_le_dec a b : Decision (string_le a b).
Proof. unfold string_le. apply _. Defined.

(** [sorted(l)] on strings and on integers. *)
Definition sorted_str (l : list string) : list string := merge_sort string_le l.
Definition sorted_int (l : list Z) : list Z := merge_sort Z.le l.

(** [s.head(n)] is [s.iloc[:n]]: the first [n] entries, and for a negative
    [n] all but the last [-n]. *)
Definition head {A} (n : Z) (l : list A) : list A :=
  if 0 <=? n then take (Z.to_nat n) l
  else take (Z.to_nat (Z.of_nat (length l) + n)) l.

(** [enumerate(l)] *)
Fixpoint enumerate_from {A} (start : Z) (l : list A) : list (Z * A) :=
  match l with
  | [] => []
  | x :: l' => (start, x) :: enumerate_from (start + 1) l'
  end.

Definition enumerate {A} (l : list A) : list (Z * A) := enumerate_from 0 l.

(** ** src/process/vocab.py *)

(** [{code: i for i, code in pairs}]: the pairs are inserted from left to
    right, a later one replacing an earlier one with the same key. *)
Definition dict_of_enumerate (pairs : list (Z * string)) : gmap string Z :=
  foldl (fun vocab '(i, code) => <[code := i]> vocab) ∅ pairs.

(** [df_events.groupby(["code_norm"])["patient_id"].nunique()]: one entry
    per code that occurs (missing codes form no group), keys in sorted
    order, valued with the number of distinct patients of the group. *)
Definition patients_of_code (df_events : list Event) (code : string) : list string :=
  patient_id <$> filter (fun ev => code_norm ev = Some code) df_events.

Definition groupby_code_nunique (df_events : list Event) : list (string * Z) :=
  (fun code => (code, nunique (patients_of_code df_events code)))
    <$> sorted_str (unique (omap code_norm df_events)).

Section Vocab.

(** [Series.sort_values(ascending=False)]. The default sort of pandas is not
    stable, so the order among equal counts is left open: the model takes
    the sort as given, and the properties below need of it only that it
    permutes its input. *)
Variable sort_values_desc : list (string * Z) -> list (string * Z).

(** [grp.index.tolist()] at line 26: the retained codes. *)
Definition retained_codes (df_events : list Event) (min_patients : Z)
    (top_k : option Z) : list string :=
  let grp := sort_values_desc (groupby_code_nunique df_events) in
  let grp := filter (fun cn => min_patients <= cn.2) grp in
  let grp := match top_k with
             | Some k => head k grp
             | None => grp
             end in
  grp.*1.

(** vocab.py, [build_label_vocab]. Writing the JSON file ([out_json]) does
    not change the returned dictionary and is left out. *)
Definition build_label_vocab (df_events : list Event) (min_patients : Z)
    (top_k : option Z) : gmap string Z :=
  dict_of_enumerate (enumerate (retained_codes df_events min_patients top_k)).

End Vocab.

(** A sort by descending count, to run the builder. *)
Definition count_ge (a b : string * Z) : Prop := b.2 <= a.2.

#[global] Instance count_ge_dec a b : Decision (count_ge a b).
Proof. unfold count_ge. apply _. Defined.

Definition merge_sort_desc (l : list (string * Z)) : list (string * Z) :=
  merge_sort count_ge l.

(** ** More of Python and pandas, for the sequence builder *)

(** The element type of the year column. [.dt.year] gives integers, but as
    soon as one date is missing (NaT) pandas stores the whole column in
    floating point, an integer column having no room for NaN. *)
Inductive dtype := int32 | float64.

(** [range(start, stop)] on values read from a column of the given element
    type; [range] takes integers only. *)
Definition py_range (dt : dtype) (start stop : Z) : result (list Z) :=
  match dt with
  | int32 => Ok (seqZ start (stop - start))
  | float64 => Raise (TypeError "'float' object cannot be interpreted as an integer")
  end.

(** [min(l)] *)
Definition py_min (l : list Z) : result Z :=
  match l with
  | [] => Raise (ValueError "min() arg is an empty sequence")
  | x :: l' => Ok (foldl Z.min x l')
  end.

(** [d[key]] on a dictionary. *)
Definition dict_getitem (d : gmap string Z) (key : string) : result Z :=
  match d !! key with
  | Some v => Ok v
  | None => Raise (KeyError key)
  end.

(** [l[i] = v] on a list: a negative index counts from the end, an index
    outside [-len, len) raises. *)
Definition list_setitem (l : list Z) (i : Z) (v : Z) : result (list Z) :=
  let n := Z.of_nat (length l) in
  if bool_decide (0 <= i < n) then Ok (<[Z.to_nat i := v]> l)
  else if bool_decide (- n <= i < 0) then Ok (<[Z.to_nat (i + n) := v]> l)
  else Raise (IndexError "list assignment index out of range").

(** Comparisons of a year cell with an integer; a missing year (NaN)
    compares false. *)
Definition year_ge (y : option Z) (bound : Z) : bool :=
  match y with Some y => bool_decide (bound <= y) | None => false end.

Definition year_le (y : option Z) (bound : Z) : bool :=
  match y with Some y => bool_decide (y <= bound) | None => false end.

(** [Series.isin(d)] on one cell: membership among the keys. *)
Definition isin (d : gmap string Z) (cell : option string) : bool :=
  match cell with
  | Some c => bool_decide (is_Some (d !! c))
  | None => false
  end.

(** A row of the working frame [df]: an event with the two derived
    columns. *)
Record Row := {
  event : Event;
  year : option Z;
  code_in_vocab : bool
}.

(** A row of the output: the dictionary appended to [rows]. *)
Record SeqRow := {
  seq_patient_id : string;
  target_year : Z;
  hist_years : list Z;
  hist_codes : list (list string);
  target_multi_hot : list Z
}.

(** A frame of output rows. Its columns are the keys of the dictionaries it
    was made from, so a frame made from no row has no column. *)
Record DataFrame := {
  columns : list string;
  records : list SeqRow
}.

(** [pd.DataFrame(rows)] *)
Definition pd_DataFrame (rows : list SeqRow) : DataFrame :=
  {| columns := match rows with
                | [] => []
                | _ :: _ => ["patient_id"; "target_year"; "hist_years";
                             "hist_codes"; "target_multi_hot"]
                end;
     records := rows |}.

(** [df["target_year"]] *)
Definition getitem_target_year (df : DataFrame) : result (list Z) :=
  if bool_decide ("target_year" ∈ columns df)
  then Ok (target_year <$> records df)
  else Raise (KeyError "target_year").

(** [df[mask].reset_index(drop=True)] for a boolean column [mask]. *)
Definition getitem_mask (df : DataFrame) (mask : list bool) : DataFrame :=
  {| columns := columns df;
     records := (filter (fun rm => rm.2 = true) (zip (records df) mask)).*1 |}.

(** The module's global names the builder reads; a name nobody has bound
    is [None]. *)
Record Globals := {
  train_until : option Z;
  val_until : option Z
}.

Definition global_name (name : string) (binding : option Z) : result Z :=
  match binding with
  | Some v => Ok v
  | None => Raise (NameError name)
  end.

(** ** src/utils/time.py and src/process/sequence.py *)

Section Sequence.

(** [pd.to_datetime(cell, errors="coerce")] followed by [.dt.year], on one
    cell: the year, or [None] for a date that does not parse (NaT, whose
    year is NaN). How pandas reads a date is not the repository's; it
    settles on one format for a column, so [cell_year] stands for what it
    made of the cells of the one table at hand, and nothing below carries a
    reading from one table over to another. *)
Variable cell_year : string -> option Z.

(** [df.sort_values("year")]. The default sort of pandas is not stable, so
    the order among rows of one year is left open: the model takes the sort
    as given, and the properties below need of it only that it permutes the
    rows. *)
Variable sort_values_year : list Row -> list Row.

(** utils/time.py, [to_year], and the same expression at line 45 of
    sequence.py: the year column, with its element type. *)
Definition to_year (s : list string) : dtype * list (option Z) :=
  let years := cell_year <$> s in
  (if bool_decide (Forall is_Some years) then int32 else float64, years).

(** Lines 44 to 48: the working frame [df], and the element type of its
    year column. *)
Definition working_frame (df_events : list Event) (label_to_id : gmap string Z)
    (min_year max_year : Z) : dtype * list Row :=
  let '(dt, years) := to_year (visit_date <$> df_events) in
  let df := zip df_events years in
  let df := filter (fun ey => year_ge ey.2 min_year && year_le ey.2 max_year = true) df in
  (dt, (fun ey => {| event := ey.1; year := ey.2;
                     code_in_vocab := isin label_to_id (code_norm ey.1) |}) <$> df).

(** Line 51: [groupby("patient_id")] yields one group per patient, in the
    sorted order of the patient identifiers, each with its rows in the
    order of the frame. *)
Definition groupby_patient_id (df : list Row) : list (string * list Row) :=
  (fun pid => (pid, filter (fun r => patient_id (event r) = pid) df))
    <$> sorted_str (unique ((fun r => patient_id (event r)) <$> df)).

(** Line 52: [sorted(g["year"].unique().tolist())]. After line 46 no year
    of the frame is missing. *)
Definition group_years (g : list Row) : list Z :=
  sorted_int (unique (omap year g)).

(** Line 60: [g.loc[g["year"] == y, "code_norm"].dropna().tolist()] *)
Definition codes_of_year (g : list Row) (y : Z) : list string :=
  omap (fun r => code_norm (event r)) (filter (fun r => year r = Some y) g).

(** Line 63: [g.loc[(g["year"] == Y) & (g["code_in_vocab"]), "code_norm"]
    .unique().tolist()] *)
Definition target_codes_of (g : list Row) (Y : Z) : list (option string) :=
  unique ((fun r => code_norm (event r))
            <$> filter (fun r => year r = Some Y /\ code_in_vocab r = true) g).

(** Lines 69 and 70: [for c in target_codes: multi_hot[label_to_id[c]] = 1].
    A missing value is not a key of the dictionary. *)
Fixpoint set_targets (label_to_id : gmap string Z) (multi_hot : list Z)
    (target_codes : list (option string)) : result (list Z) :=
  match target_codes with
  | [] => Ok multi_hot
  | c :: target_codes' =>
      i ← match c with
          | Some c => dict_getitem label_to_id c
          | None => Raise (KeyError "nan")
          end;
      multi_hot' ← list_setitem multi_hot i 1;
      set_targets label_to_id multi_hot' target_codes'
  end.

(** Lines 53 to 78: the loop over the years of one patient. *)
Fixpoint for_years (dt : dtype) (label_to_id : gmap string Z)
    (history_years min_year : Z) (pid : string) (g : list Row)
    (years : list Z) (rows : list SeqRow) : result (list SeqRow) :=
  match years with
  | [] => Ok rows
  | Y :: years' =>
      hist_window ← py_range dt (Y - history_years) Y;
      lo ← py_min hist_window;
      if bool_decide (lo < min_year)
      then for_years dt label_to_id history_years min_year pid g years' rows
      else
        let hist := codes_of_year g <$> hist_window in
        let target_codes := target_codes_of g Y in
        let K := size label_to_id in
        multi_hot ← set_targets label_to_id (replicate K 0) target_codes;
        for_years dt label_to_id history_years min_year pid g years'
          (rows ++ [ {| seq_patient_id := pid;
                        target_year := Y;
                        hist_years := hist_window;
                        hist_codes := hist;
                        target_multi_hot := multi_hot |} ])
  end.

(** Lines 51 to 78: the loop over the patients. *)
Fixpoint for_patients (dt : dtype) (label_to_id : gmap string Z)
    (history_years min_year : Z) (groups : list (string * list Row))
    (rows : list SeqRow) : result (list SeqRow) :=
  match groups with
  | [] => Ok rows
  | (pid, g) :: groups' =>
      rows' ← for_years dt label_to_id history_years min_year pid g
                (group_years g) rows;
      for_patients dt label_to_id history_years min_year groups' rows'
  end.

(** Lines 44 to 78: the list [rows] when the loops are over, that is, the
    examples the builder emits. *)
Definition emitted_rows (df_events : list Event) (label_to_id : gmap string Z)
    (history_years min_year max_year : Z) : result (list SeqRow) :=
  let '(dt, df) := working_frame df_events label_to_id min_year max_year in
  for_patients dt label_to_id history_years min_year
    (groupby_patient_id (sort_values_year df)) [].

(** sequence.py, [build_yearly_sequences]. [train_until] and [val_until]
    are not parameters of the function: it reads them as global names of
    its module, [G]. *)
Definition build_yearly_sequences (G : Globals) (df_events : list Event)
    (label_to_id : gmap string Z) (history_years min_year max_year : Z)
    : result (DataFrame * DataFrame * DataFrame) :=
  rows ← emitted_rows df_events label_to_id history_years min_year max_year;
  let df_seqs := pd_DataFrame rows in
  (* line 83 *)
  ty ← getitem_target_year df_seqs;
  tu ← global_name "train_until" (train_until G);
  let train := getitem_mask df_seqs ((fun y => bool_decide (y <= tu)) <$> ty) in
  (* line 84 *)
  ty1 ← getitem_target_year df_seqs;
  tu1 ← global_name "train_until" (train_until G);
  ty2 ← getitem_target_year df_seqs;
  vu ← global_name "val_until" (val_until G);
  let val := getitem_mask df_seqs
               (zip_with andb ((fun y => bool_decide (tu1 < y)) <$> ty1)
                              ((fun y => bool_decide (y <= vu)) <$> ty2)) in
  (* line 85 *)
  ty3 ← getitem_target_year df_seqs;
  vu1 ← global_name "val_until" (val_until G);
  let test := getitem_mask df_seqs ((fun y => bool_decide (vu1 < y)) <$> ty3) in
  Ok (train, val, test).

End Sequence.

(** To run the builder: a reader of ISO dates ("YYYY-MM-DD") and a sort by
    year. *)
Definition digit (a : Ascii.ascii) : option Z :=
  let n := Z.of_N (Ascii.N_of_ascii a) in
  if bool_decide (48 <= n <= 57) then Some (n - 48) else None.

Definition iso_year (s : string) : option Z :=
  match s with
  | String a (String b (String c (String d _))) =>
      a ← digit a; b ← digit b; c ← digit c; d ← digit d;
      Some (1000 * a + 100 * b + 10 * c + d)
  | _ => None
  end.

Definition year_le_rows (a b : Row) : Prop :=
  default 0 (year a) <= default 0 (year b).

#[global] Instance year_le_rows_dec a b : Decision (year_le_rows a b).
Proof. unfold year_le_rows. apply _. Defined.

Definition merge_sort_year (df : list Row) : list Row :=
  merge_sort year_le_rows df.

(** A small table to run the builder on: patient P with one event in each
    of 2018, 2019 and 2020, patient Q with one event in 2019; the one code
    of the vocabulary is Z. *)
Definition ev_ (p d c : string) : Event :=
  {| patient_id := p; visit_date := d; code_norm := Some c |}.

Definition demo_events : list Event :=
  [ev_ "P" "2020-02-01" "Z"; ev_ "P" "2018-05-05" "X";
   ev_ "P" "2019-07-09" "Y"; ev_ "Q" "2019-01-01" "Z"].

Definition demo_vocab : gmap string Z := {[ "Z" := 0 ]}.

Definition demo_globals : Globals :=
  {| train_until := Some 2018; val_until := Some 2019 |}.

Definition demo_row (pid : string) (Y : Z) (codes : list (list string))
    (multi_hot : list Z) : SeqRow :=
  {| seq_patient_id := pid; target_year := Y; hist_years := [Y - 2; Y - 1];
     hist_codes := codes; target_multi_hot := multi_hot |}.

Definition demo_rows : list SeqRow :=
  [demo_row "P" 2019 [[]; ["X"]] [0];
   demo_row "P" 2020 [["X"]; ["Y"]] [1];
   demo_row "Q" 2019 [[]; []] [1]].

(** ** Vocabulary of the specification *)

(** The position a Python index denotes in a list of length [n]. *)
Definition py_index (n : nat) (i : Z) : Z :=
  if bool_decide (i < 0) then i + Z.of_nat n else i.

(** A label vocabulary as the data model has it: every index lies in
    [0, K), K the number of codes. *)
Definition vocab_wf (label_to_id : gmap string Z) : Prop :=
  forall c i, label_to_id !! c = Some i -> 0 <= i < Z.of_nat (size label_to_id).

(** The example lines 55 to 78 build for the target year [Y] of a group
    when the window check lets it through and nothing raises. *)
Definition example_for (label_to_id : gmap string Z) (history_years min_year : Z)
    (pid : string) (g : list Row) (Y : Z) (e : SeqRow) : Prop :=
  min_year <= Y - history_years /\
  exists multi_hot,
    set_targets label_to_id (replicate (size label_to_id) 0)
                (target_codes_of g Y) = Ok multi_hot /\
    e = {| seq_patient_id := pid;
           target_year := Y;
           hist_years := seqZ (Y - history_years) history_years;
           hist_codes := codes_of_year g <$> seqZ (Y - history_years) history_years;
           target_multi_hot := multi_hot |}.

Section SpecVocabulary.

Variable cell_year : string -> option Z.

(** The row of the working frame an event becomes. *)
Definition mk_row (label_to_id : gmap string Z) (ev : Event) : Row :=
  {| event := ev; year := cell_year (visit_date ev);
     code_in_vocab := isin label_to_id (code_norm ev) |}.

(** The year of the event lies in the valid range. *)
Definition year_in_range (min_year max_year : Z) (ev : Event) : Prop :=
  year_ge (cell_year (visit_date ev)) min_year
  && year_le (cell_year (visit_date ev)) max_year = true.

#[global] Instance year_in_range_dec min_year max_year ev :
  Decision (year_in_range min_year max_year ev).
Proof. unfold year_in_range. apply _. Defined.

(** Every date of the table parses. *)
Definition dates_parse (df_events : list Event) : Prop :=
  Forall (fun ev => is_Some (cell_year (visit_date ev))) df_events.

(** [Y] is a candidate target year of the patient: a year of the valid
    range in which the patient has at least one event. *)
Definition candidate (df_events : list Event) (min_year max_year : Z)
    (pid : string) (Y : Z) : Prop :=
  exists ev, ev ∈ df_events /\ patient_id ev = pid /\
             cell_year (visit_date ev) = Some Y /\ min_year <= Y <= max_year.

(** The events of a patient in a year. *)
Definition events_in_year (df_events : list Event) (pid : string) (y : Z)
    : list Event :=
  filter (fun ev => patient_id ev = pid /\ cell_year (visit_date ev) = Some y)
         df_events.

(** The patient had the code in the year. *)
Definition had_code (df_events : list Event) (pid : string) (y : Z)
    (c : string) : Prop :=
  Some c ∈ code_norm <$> events_in_year df_events pid y.

(** The group of a patient at line 51, for a given sort of the frame. *)
Definition group_of (sort_values_year : list Row -> list Row)
    (df_events : list Event) (label_to_id : gmap string Z)
    (min_year max_year : Z) (pid : string) : list Row :=
  filter (fun r => patient_id (event r) = pid)
    (sort_values_year
       (mk_row label_to_id <$> filter (year_in_range min_year max_year) df_events)).

End SpecVocabulary.

(** ** Vocabulary of the specification, continued *)

(** A code meets the prevalence threshold: it occurs in the table, and the
    number of distinct patients with an event of that code is at least
    [min_patients]. *)
Definition qualifies (df_events : list Event) (min_patients : Z) (c : string)
    : Prop :=
  (exists ev, ev ∈ df_events /\ code_norm ev = Some c) /\
  min_patients <= nunique (patients_of_code df_events c).

(** The pair (patient, target year) an output row is about. *)
Definition seq_key (e : SeqRow) : string * Z := (seq_patient_id e, target_year e).

(** Two keys in output order: of the same patient only with the earlier
    year first. *)
Definition key_before (a b : string * Z) : Prop := a.1 = b.1 -> a.2 < b.2.

(** The years of a list that pass the window check of line 56. *)
Definition window_years (history_years min_year : Z) (years : list Z) : list Z :=
  filter (fun Y => min_year <= Y - history_years) years.

(** ** scripts/convert_mimic_to_events.py, [mimic3_to_events], and schema.py *)

#[global] Instance pyobj_eq_dec : EqDecision pyobj.
Proof. solve_decision. Defined.

Module Mimic.

(** schema.py, [EventRow]: a row of the unified events table, which is
    what the script writes. The two identifiers are the cells of the source
    table, whatever they hold. *)
Record EventRow := {
  patient_id : pyobj;
  visit_id : pyobj;
  visit_date : string;
  code : pystr;
  coding_system : string
}.

(** A row of the merged frame [m] of line 40, with the columns the script
    goes on to read. *)
Record MergedRow := {
  subject_id : pyobj;
  hadm_id : pyobj;
  admittime : pyobj;
  icd9_code : pyobj
}.

(** [drop_duplicates()] takes missing values, [None] and NaN alike, for
    equal; [row_key] is what it compares. *)
Definition na_key (o : pyobj) : pyobj :=
  match o with PyNone => PyNaN | _ => o end.

Definition row_key (e : EventRow) : pyobj * pyobj * string * pystr * string :=
  (na_key (patient_id e), na_key (visit_id e), visit_date e, code e,
   coding_system e).

(** [drop_duplicates()]: of rows that compare equal the first is kept. *)
Fixpoint drop_duplicates (rows : list EventRow) : list EventRow :=
  match rows with
  | [] => []
  | e :: rows' =>
      e :: filter (fun e' => row_key e' <> row_key e) (drop_duplicates rows')
  end.

(** Lines 34 to 37, one loop: [for req in required: if req not in columns:
    raise ValueError(f"MIMIC-III {table} missing {req}")]. *)
Fixpoint require_columns (table : string) (required columns : list string)
    : result unit :=
  match required with
  | [] => Ok ()
  | req :: required' =>
      if bool_decide (req ∈ columns)
      then require_columns table required' columns
      else Raise (ValueError ("MIMIC-III " +:+ table +:+ " missing " +:+ req))
  end.

Section Script.

(** [str.upper()] and [str.lower()], which are Unicode's tables, and
    [pd.to_datetime(column, errors="coerce").dt.date.astype(str)], which is
    pandas's reading of dates. *)
Variable upper_cp : N -> list N.
Variable lower : string -> string.
Variable date_strings : list pyobj -> list string.

(** Lines 41 to 45: from the merged frame to the events. [norm_code]
    always returns a string, so [notna()] holds of every code. *)
Definition events_of_merged (m : list MergedRow) (keep_dots : bool)
    : list EventRow :=
  let visit_date := date_strings (admittime <$> m) in
  let code := (fun x => norm_code upper_cp x (negb keep_dots)) <$> (icd9_code <$> m) in
  let m := zip m (zip visit_date code) in
  let events := filter (fun r => r.2.2 <> []) m in
  drop_duplicates
    ((fun r => {| patient_id := subject_id r.1; visit_id := hadm_id r.1;
                  visit_date := r.2.1; code := r.2.2;
                  coding_system := "ICD9" |}) <$> events).

(** convert_mimic_to_events.py, [mimic3_to_events], on tables already read:
    [d_columns] and [a_columns] are the column names of the two tables as
    read, [m] is the frame the merge of line 40 gives. Reading the files,
    the merge itself, and writing and printing the result are not
    modelled. *)
Definition mimic3_to_events (d_columns a_columns : list string)
    (m : list MergedRow) (keep_dots : bool) : result (list EventRow) :=
  let d_columns := lower <$> d_columns in
  let a_columns := lower <$> a_columns in
  _ ← require_columns "diagnoses" ["subject_id"; "hadm_id"; "icd9_code"] d_columns;
  _ ← require_columns "admissions" ["hadm_id"; "admittime"] a_columns;
  Ok (events_of_merged m keep_dots).

End Script.

End Mimic.

(** To run the script's function: a lower-casing that is right on ASCII,
    and a reader of dates that keeps the ten characters of an ISO date. *)
Definition ascii_lower_char (a : Ascii.ascii) : Ascii.ascii :=
  let n := Ascii.N_of_ascii a in
  if ((65 <=? n) && (n <=? 90))%N then Ascii.ascii_of_N (n + 32) else a.

Fixpoint ascii_lower (s : string) : string :=
  match s with
  | EmptyString => EmptyString
  | String a s' => String (ascii_lower_char a) (ascii_lower s')
  end.

Definition iso_date_strings (col : list pyobj) : list string :=
  (fun o => match o with
            | PyStr s => String.substring 0 10
                           (String.string_of_list_ascii
                              (Ascii.ascii_of_N <$> s))
            | _ => "NaT"
            end) <$> col.

(** A small merged frame: two diagnoses of one admission, one of them
    twice, and a row without a code. *)
Definition demo_merged : list Mimic.MergedRow :=
  let row code :=
    {| Mimic.subject_id := PyInt 7; Mimic.hadm_id := PyInt 100;
       Mimic.admittime := PyStr (cps "2150-03-04 10:00:00");
       Mimic.icd9_code := code |} in
  [row (PyStr (cps "250.00")); row (PyStr (cps " v45.81")); row PyNaN;
   row (PyStr (cps "25000"))].

Definition demo_event (code : string) : Mimic.EventRow :=
  {| Mimic.patient_id := PyInt 7; Mimic.visit_id := PyInt 100;
     Mimic.visit_date := "2150-03-04"; Mimic.code := cps code;
     Mimic.coding_system := "ICD9" |}.

(** The module as the repository has it: nothing in it binds
    [train_until] or [val_until]. *)
Definition shipped_globals : Globals :=
  {| train_until := None; val_until := None |}.

(** The small table with one more row, of another patient, whose date does
    not parse. *)
Definition demo_events_unparsed : list Event :=
  demo_events ++ [ev_ "R" "NaT" "Z"].

(* ===================================================================== *)
(** * Part II. Properties                                                 *)
(* ===================================================================== *)

(** ** The normalisers *)

Lemma filter_id_Forall {A} (f : A -> bool) (l : list A) :
  Forall (fun x => f x = true) l -> List.filter f l = l.
Proof.
  induction 1 as [|x l Hx _ IH]; simpl; [done|].
  by rewrite Hx, IH.
Qed.

Lemma Forall_List_filter {A} (f : A -> bool) (l : list A) :
  Forall (fun x => f x = true) (List.filter f l).
Proof.
  apply List.Forall_forall. intros x Hx.
  by apply List.filter_In in Hx as [_ ?].
Qed.

Lemma Forall_filter_keeps {A} (P : A -> Prop) (f : A -> bool) (l : list A) :
  Forall P l -> Forall P (List.filter f l).
Proof.
  intros H. apply List.Forall_forall. intros x Hx.
  apply List.filter_In in Hx as [Hx _].
  revert x Hx. by apply List.Forall_forall.
Qed.

Lemma filter_filter_absorb {A} (f g : A -> bool) (l : list A) :
  (forall x, f x = true -> g x = true) ->
  List.filter f (List.filter g l) = List.filter f l.
Proof.
  intros Hfg. induction l as [|x l IH]; simpl; [done|].
  destruct (g x) eqn:Hg; simpl.
  - by rewrite IH.
  - destruct (f x) eqn:Hf; [|done].
    apply Hfg in Hf. congruence.
Qed.

Lemma filter_ext_Forall {A} (f g : A -> bool) (l : list A) :
  Forall (fun x => f x = g x) l -> List.filter f l = List.filter g l.
Proof.
  induction 1 as [|x l Hx _ IH]; simpl; [done|].
  by rewrite Hx, IH.
Qed.

(** Turns boolean range tests on code points into linear arithmetic. *)
Ltac range_prop H :=
  repeat first
    [ rewrite orb_true_iff in H | rewrite andb_true_iff in H
    | rewrite N.leb_le in H | rewrite N.eqb_eq in H
    | rewrite orb_false_iff in H | rewrite andb_false_iff in H
    | rewrite N.leb_gt in H | rewrite N.eqb_neq in H ].

Lemma class_not_whitespace c : class_AZ09dot c = true -> is_whitespace c = false.
Proof.
  intros H. destruct (is_whitespace c) eqn:E; [exfalso|done].
  unfold class_AZ09dot, is_whitespace in *.
  range_prop H. range_prop E. lia.
Qed.

Lemma class_not_space c : class_AZ09dot c = true -> negb (c =? 32)%N = true.
Proof.
  unfold class_AZ09dot. intros H.
  destruct (N.eqb_spec c 32) as [->|]; [by vm_compute in H|done].
Qed.

Lemma lstrip_no_whitespace s :
  Forall (fun c => is_whitespace c = false) s -> lstrip s = s.
Proof. destruct 1 as [|c s Hc _]; simpl; [done|]. by rewrite Hc. Qed.

Lemma strip_no_whitespace s :
  Forall (fun c => is_whitespace c = false) s -> strip s = s.
Proof.
  intros H. unfold strip, rstrip.
  rewrite (lstrip_no_whitespace s H).
  rewrite lstrip_no_whitespace; [apply rev_involutive|].
  by apply List.Forall_rev.
Qed.

Lemma replace_empty_idem c s : replace_empty c (replace_empty c s) = replace_empty c s.
Proof. unfold replace_empty. by apply filter_filter_absorb. Qed.

Lemma ascii_upper_fixes_class c :
  class_AZ09dot c = true -> ascii_upper_cp c = [c].
Proof.
  intros H. unfold ascii_upper_cp.
  destruct ((97 <=? c) && (c <=? 122))%N eqn:E; [exfalso|done].
  unfold class_AZ09dot in H. range_prop H. range_prop E. lia.
Qed.

Lemma ascii_upper_no_small c d :
  In d (ascii_upper_cp c) -> ((97 <=? d) && (d <=? 122))%N = false.
Proof.
  unfold ascii_upper_cp. intros [<-|[]].
  destruct ((97 <=? c) && (c <=? 122))%N eqn:E; [|done].
  range_prop E. apply andb_false_iff. rewrite N.leb_gt. lia.
Qed.

Section NormalizerProps.

Variable upper_cp : N -> list N.

(** Two facts of Unicode's upper-case mapping: it fixes the capital
    letters, the digits and the dot, and it never yields an ASCII small
    letter. *)
Hypothesis upper_fixes_class :
  forall c, class_AZ09dot c = true -> upper_cp c = [c].
Hypothesis upper_no_small :
  forall c d, In d (upper_cp c) -> ((97 <=? d) && (d <=? 122))%N = false.

Lemma upper_class_id s :
  Forall (fun c => class_AZ09dot c = true) s -> upper upper_cp s = s.
Proof using upper_fixes_class.
  unfold upper. induction 1 as [|c s Hc _ IH]; simpl; [done|].
  by rewrite (upper_fixes_class c Hc), IH.
Qed.

Lemma upper_no_small_letters s :
  Forall (fun d => ((97 <=? d) && (d <=? 122))%N = false) (upper upper_cp s).
Proof using upper_no_small.
  apply List.Forall_forall. intros d Hd.
  apply in_flat_map in Hd as (c & _ & Hd). eauto.
Qed.

(** What either normaliser returns is made of capital letters, digits and
    dots only. *)
Lemma normalize_icd_class code system dotless :
  Forall (fun c => class_AZ09dot c = true)
         (normalize_icd upper_cp code system dotless).
Proof.
  destruct code as [s| | |]; simpl; try by constructor.
  destruct dotless.
  - apply Forall_filter_keeps, Forall_List_filter.
  - apply Forall_List_filter.
Qed.

(** On such a string the normaliser has nothing left to do but drop the
    dots. *)
Lemma normalize_icd_on_class s system dotless :
  Forall (fun c => class_AZ09dot c = true) s ->
  normalize_icd upper_cp (PyStr s) system dotless =
  if dotless then replace_empty 46 s else s.
Proof using upper_fixes_class.
  intros Hs. simpl.
  rewrite strip_no_whitespace
    by (eapply Forall_impl; [exact Hs|]; apply class_not_whitespace).
  rewrite (upper_class_id s Hs).
  replace (replace_empty 32 s) with s.
  2:{ symmetry. apply filter_id_Forall.
      eapply Forall_impl; [exact Hs|]. apply class_not_space. }
  unfold re_sub_outside. by rewrite (filter_id_Forall _ _ Hs).
Qed.

(** C9. The code normaliser [normalize_icd] is idempotent: for every
    input, a string or not (a non-string normalises to the empty string),
    and every fixed [system] and [dotless], normalising the result again
    gives the same result. *)
Theorem normalize_icd_idempotent (x : pyobj) (system : string) (dotless : bool) :
  normalize_icd upper_cp (PyStr (normalize_icd upper_cp x system dotless))
                system dotless
  = normalize_icd upper_cp x system dotless
  /\ (isinstance_str x = false -> normalize_icd upper_cp x system dotless = []).
Proof using upper_fixes_class.
  split.
  - rewrite normalize_icd_on_class by apply normalize_icd_class.
    destruct dotless; [|done].
    destruct x as [s| | |]; simpl; try done.
    apply replace_empty_idem.
  - by destruct x.
Qed.

(** C10. The two normalisers compute the same function: for every input
    and every flag, [normalize_icd code system dotless] of the process
    module equals [norm_code code dotless] of the conversion script, and
    both send a non-string to the empty string. *)
Theorem normalize_icd_eq_norm_code (code : pyobj) (system : string) (dotless : bool) :
  normalize_icd upper_cp code system dotless = norm_code upper_cp code dotless
  /\ (isinstance_str code = false ->
      normalize_icd upper_cp code system dotless = [] /\
      norm_code upper_cp code dotless = []).
Proof using upper_no_small.
  split; [|by destruct code].
  destruct code as [s| | |]; simpl; try done.
  set (u := upper upper_cp (strip s)).
  assert (re_sub_outside class_AZ09dot (replace_empty 32 u)
          = re_sub_outside class_AZaz09dot u) as ->; [|done].
  unfold re_sub_outside, replace_empty.
  rewrite filter_filter_absorb by apply class_not_space.
  apply filter_ext_Forall.
  eapply Forall_impl; [apply upper_no_small_letters|].
  intros d Hd. unfold class_AZ09dot, class_AZaz09dot.
  simpl in Hd. rewrite Hd. by rewrite orb_false_r.
Qed.

End NormalizerProps.

Lemma normalize_icd_idempotent_witness :
  (forall c, class_AZ09dot c = true -> ascii_upper_cp c = [c]) /\
  normalize_icd ascii_upper_cp
    (PyStr (normalize_icd ascii_upper_cp (PyStr (cps " e11.9 ")) "ICD10" true))
    "ICD10" true
  = cps "E119".
Proof.
  split; [exact ascii_upper_fixes_class|].
  rewrite (proj1 (normalize_icd_idempotent ascii_upper_cp
                    ascii_upper_fixes_class (PyStr (cps " e11.9 ")) "ICD10" true)).
  reflexivity.
Defined.

Lemma normalize_icd_eq_norm_code_witness :
  (forall c d, In d (ascii_upper_cp c) -> ((97 <=? d) && (d <=? 122))%N = false) /\
  normalize_icd ascii_upper_cp (PyStr (cps "v45 .81-x")) "ICD9" false
  = norm_code ascii_upper_cp (PyStr (cps "v45 .81-x")) false.
Proof.
  split; [exact ascii_upper_no_small|].
  exact (proj1 (normalize_icd_eq_norm_code ascii_upper_cp ascii_upper_no_small
                  (PyStr (cps "v45 .81-x")) "ICD9" false)).
Defined.


(** ** The vocabulary builder *)

Example build_label_vocab_scenario_A :
  let ev p c := {| patient_id := p; visit_date := "2019-01-01"; code_norm := Some c |} in
  build_label_vocab merge_sort_desc
    [ev "p1" "A"; ev "p2" "B"; ev "p2" "A"; ev "p3" "A"; ev "p1" "A"] 2 None
  = {[ "A" := 0 ]}.
Proof. vm_compute. reflexivity. Qed.

Lemma elem_of_unique `{EqDecision A} (l : list A) x : x ∈ unique l ↔ x ∈ l.
Proof.
  induction l as [|y l IH]; simpl; [done|].
  rewrite !elem_of_cons, list_elem_of_filter, IH.
  destruct (decide (x = y)); naive_solver.
Qed.

Lemma NoDup_unique `{EqDecision A} (l : list A) : NoDup (unique l).
Proof.
  induction l as [|y l IH]; simpl; [constructor|].
  constructor; [|by apply NoDup_filter].
  rewrite list_elem_of_filter. naive_solver.
Qed.

Lemma dict_of_enumerate_lookup (codes : list string) (k : Z)
    (m0 : gmap string Z) c i :
  NoDup codes ->
  foldl (fun vocab '(i, code) => <[code := i]> vocab) m0 (enumerate_from k codes)
    !! c = Some i
  <-> (exists n : nat, codes !! n = Some c /\ i = k + Z.of_nat n)
      \/ ((c ∉ codes) /\ m0 !! c = Some i).
Proof.
  intros Hnd. revert k m0.
  induction Hnd as [|x codes Hx Hnd IH]; intros k m0; simpl.
  - split; [intros H; right; split; [apply not_elem_of_nil|done]|].
    intros [(n & Hn & _)|[_ H]]; [by destruct n|done].
  - rewrite IH. rewrite not_elem_of_cons. split.
    + intros [(n & Hn & ->)|[Hc Hl]].
      * left. exists (S n). split; [done|lia].
      * destruct (decide (c = x)) as [->|Hne].
        -- rewrite lookup_insert_eq in Hl. injection Hl as <-.
           left. exists 0%nat. split; [done|lia].
        -- rewrite lookup_insert_ne in Hl by done. by right.
    + intros [(n & Hn & ->)|[[Hne Hc] Hl]].
      * destruct n as [|n]; simpl in Hn.
        -- injection Hn as ->. right. split; [done|].
           rewrite lookup_insert_eq. f_equal. lia.
        -- left. exists n. split; [done|lia].
      * right. split; [done|]. by rewrite lookup_insert_ne.
Qed.

Lemma dict_of_enumerate_size (codes : list string) (k : Z) (m0 : gmap string Z) :
  NoDup codes -> (forall c, c ∈ codes -> m0 !! c = None) ->
  size (foldl (fun vocab '(i, code) => <[code := i]> vocab) m0
          (enumerate_from k codes))
  = (size m0 + length codes)%nat.
Proof.
  intros Hnd. revert k m0.
  induction Hnd as [|x codes Hx Hnd IH]; intros k m0 Hfresh; simpl; [lia|].
  rewrite IH.
  - rewrite map_size_insert_None by (apply Hfresh; left). lia.
  - intros c Hc. rewrite lookup_insert_ne by (intros ->; done).
    apply Hfresh. by right.
Qed.

Lemma groupby_code_nunique_keys df_events :
  NoDup (groupby_code_nunique df_events).*1.
Proof.
  unfold groupby_code_nunique. rewrite <- list_fmap_compose.
  rewrite (list_fmap_ext _ id) by done. rewrite list_fmap_id.
  unfold sorted_str. rewrite merge_sort_Permutation. apply NoDup_unique.
Qed.

Lemma groupby_code_nunique_value df_events code n :
  (code, n) ∈ groupby_code_nunique df_events ->
  n = nunique (patients_of_code df_events code).
Proof.
  unfold groupby_code_nunique. rewrite list_elem_of_fmap.
  intros (c & [= -> ->] & _). done.
Qed.

(** The patients counted for a code are the patients with an event of that
    code, each once. *)
Lemma nunique_patients df_events code :
  NoDup (unique (patients_of_code df_events code)) /\
  (forall p, p ∈ unique (patients_of_code df_events code) <->
             exists ev, ev ∈ df_events /\ patient_id ev = p /\
                        code_norm ev = Some code).
Proof.
  split; [apply NoDup_unique|]. intros p.
  rewrite elem_of_unique. unfold patients_of_code.
  rewrite list_elem_of_fmap. setoid_rewrite list_elem_of_filter.
  naive_solver.
Qed.

Lemma head_sublist {A} (n : Z) (l : list A) : head n l `sublist_of` l.
Proof. unfold head. destruct (0 <=? n); apply sublist_take. Qed.

Section VocabProps.

Variable sort_values_desc : list (string * Z) -> list (string * Z).
Hypothesis sort_values_desc_perm : forall l, sort_values_desc l ≡ₚ l.

Lemma retained_codes_from_groups df_events min_patients top_k :
  exists grp,
    retained_codes sort_values_desc df_events min_patients top_k = grp.*1 /\
    grp `sublist_of` sort_values_desc (groupby_code_nunique df_events) /\
    Forall (fun cn => min_patients <= cn.2) grp.
Proof.
  unfold retained_codes.
  set (sorted := sort_values_desc _).
  set (kept := filter _ sorted).
  assert (Forall (fun cn : string * Z => min_patients <= cn.2) kept) as Hkept.
  { apply Forall_forall. intros cn Hcn.
    by apply list_elem_of_filter in Hcn as [? _]. }
  assert (kept `sublist_of` sorted) as Hsub by apply sublist_filter.
  destruct top_k as [k|].
  - exists (head k kept). split; [done|]. split.
    + etrans; [apply head_sublist|done].
    + apply Forall_forall. intros cn Hcn.
      eapply Forall_forall in Hkept; [done|].
      eapply elem_of_sublist; [done|apply head_sublist].
  - exists kept. done.
Qed.

End VocabProps.

Section VocabTheorem.

Variable sort_values_desc : list (string * Z) -> list (string * Z).
Hypothesis sort_values_desc_perm : forall l, sort_values_desc l ≡ₚ l.

Lemma retained_codes_NoDup df_events min_patients top_k :
  NoDup (retained_codes sort_values_desc df_events min_patients top_k).
Proof using sort_values_desc_perm.
  destruct (retained_codes_from_groups sort_values_desc df_events
              min_patients top_k) as (grp & -> & Hsub & _).
  eapply sublist_NoDup; [|apply fmap_sublist, Hsub].
  rewrite sort_values_desc_perm. apply groupby_code_nunique_keys.
Qed.

Lemma retained_codes_prevalence df_events min_patients top_k code :
  code ∈ retained_codes sort_values_desc df_events min_patients top_k ->
  min_patients <= nunique (patients_of_code df_events code).
Proof using sort_values_desc_perm.
  destruct (retained_codes_from_groups sort_values_desc df_events
              min_patients top_k) as (grp & -> & Hsub & Hmin).
  rewrite list_elem_of_fmap. intros ([c n] & -> & Hin). simpl.
  eapply Forall_forall in Hmin; [|done]. simpl in Hmin.
  eapply elem_of_sublist in Hin; [|done].
  rewrite sort_values_desc_perm in Hin.
  by apply groupby_code_nunique_value in Hin as <-.
Qed.

(** C7. For every event table, every [min_patients] and every optional
    [top_k], the dictionary [build_label_vocab] returns is injective
    (distinct codes get distinct indices), its indices are exactly the
    integers of [0, K) where K is the number of retained codes, and every
    code of its domain was given to at least [min_patients] distinct
    patients. *)
Theorem build_label_vocab_injective_dense_prevalent
    (df_events : list Event) (min_patients : Z) (top_k : option Z) :
  let vocab := build_label_vocab sort_values_desc df_events min_patients top_k in
  let K := length (retained_codes sort_values_desc df_events min_patients top_k) in
  size vocab = K /\
  (forall c1 c2 i, vocab !! c1 = Some i -> vocab !! c2 = Some i -> c1 = c2) /\
  (forall i, (exists c, vocab !! c = Some i) <-> 0 <= i < Z.of_nat K) /\
  (forall c i, vocab !! c = Some i ->
     exists patients : list string,
       NoDup patients /\
       (forall p, p ∈ patients <->
          exists ev, ev ∈ df_events /\ patient_id ev = p /\ code_norm ev = Some c) /\
       min_patients <= Z.of_nat (length patients)).
Proof using sort_values_desc_perm.
  intros vocab K. subst vocab K.
  unfold build_label_vocab, dict_of_enumerate, enumerate.
  set (codes := retained_codes _ _ _ _).
  assert (NoDup codes) as Hnd by apply retained_codes_NoDup.
  assert (forall c i,
    foldl (fun vocab '(i, code) => <[code := i]> vocab) (∅ : gmap string Z)
      (enumerate_from 0 codes) !! c = Some i
    <-> exists n : nat, codes !! n = Some c /\ i = Z.of_nat n) as Hlook.
  { intros c i. rewrite dict_of_enumerate_lookup by done.
    rewrite lookup_empty. split.
    - intros [(n & ? & ->)|[_ ?]]; [|done]. exists n. split; [done|lia].
    - intros (n & ? & ->). left. exists n. split; [done|lia]. }
  split; [|split; [|split]].
  - rewrite dict_of_enumerate_size; [by rewrite map_size_empty|done|].
    intros. apply lookup_empty.
  - intros c1 c2 i [n1 [H1 ->]]%Hlook [n2 [H2 Heq]]%Hlook.
    assert (n1 = n2) as -> by lia. congruence.
  - intros i. split.
    + intros [c [n [Hn ->]]%Hlook]. apply lookup_lt_Some in Hn. lia.
    + intros Hi. destruct (lookup_lt_is_Some_2 codes (Z.to_nat i)) as [c Hc]; [lia|].
      exists c. apply Hlook. exists (Z.to_nat i). split; [done|lia].
  - intros c i [n [Hn _]]%Hlook.
    apply list_elem_of_lookup_2 in Hn.
    apply retained_codes_prevalence in Hn.
    exists (unique (patients_of_code df_events c)).
    destruct (nunique_patients df_events c) as [? ?]. done.
Qed.

End VocabTheorem.

Lemma build_label_vocab_witness :
  let ev p c := {| patient_id := p; visit_date := "2019-01-01"; code_norm := Some c |} in
  let df := [ev "p1" "A"; ev "p2" "B"; ev "p2" "A"; ev "p3" "A"; ev "p1" "A"] in
  (forall l, merge_sort_desc l ≡ₚ l) /\
  size (build_label_vocab merge_sort_desc df 2 (Some 5)) = 1%nat /\
  forall c i, build_label_vocab merge_sort_desc df 2 (Some 5) !! c = Some i ->
              i = 0.
Proof.
  intros ev df.
  pose proof (build_label_vocab_injective_dense_prevalent merge_sort_desc
                (merge_sort_Permutation count_ge) df 2 (Some 5)) as (Hsz & _ & Hidx & _).
  split; [exact (merge_sort_Permutation count_ge)|].
  split; [exact Hsz|].
  intros c i Hc.
  assert (0 <= i < 1) as Hi by (apply Hidx; by exists c). lia.
Defined.

(** ** The sequence builder *)

Lemma foldl_min_lower x l : Forall (fun y => x <= y) l -> foldl Z.min x l = x.
Proof.
  induction 1 as [|y l Hy _ IH]; simpl; [done|].
  by rewrite Z.min_l.
Qed.

Lemma py_min_range a n : 0 < n -> py_min (seqZ a n) = Ok a.
Proof.
  intros Hn. rewrite seqZ_cons by done. simpl. f_equal.
  apply foldl_min_lower, Forall_forall. intros y Hy%elem_of_seqZ. lia.
Qed.

Lemma py_min_range_empty a n :
  n <= 0 -> py_min (seqZ a n) = Raise (ValueError "min() arg is an empty sequence").
Proof. intros Hn. by rewrite seqZ_nil. Qed.

Lemma list_setitem_Ok l i v l' :
  list_setitem l i v = Ok l' ->
  - Z.of_nat (length l) <= i < Z.of_nat (length l) /\
  l' = <[Z.to_nat (py_index (length l) i) := v]> l.
Proof.
  unfold list_setitem, py_index. intros H.
  repeat case_bool_decide; simplify_eq; (split; [lia|done]) || lia.
Qed.

Lemma list_setitem_in_range l i v :
  0 <= i < Z.of_nat (length l) -> list_setitem l i v = Ok (<[Z.to_nat i := v]> l).
Proof. intros Hi. unfold list_setitem. by rewrite bool_decide_eq_true_2. Qed.


(** What the loop of lines 69 and 70 leaves in [multi_hot]. *)
Lemma set_targets_Ok label_to_id target_codes : forall multi_hot multi_hot',
  set_targets label_to_id multi_hot target_codes = Ok multi_hot' ->
  length multi_hot' = length multi_hot /\
  (forall j : nat,
     multi_hot' !! j = Some 1 <->
     multi_hot !! j = Some 1 \/
     exists c i, Some c ∈ target_codes /\ label_to_id !! c = Some i /\
                 py_index (length multi_hot) i = Z.of_nat j) /\
  (forall (j : nat) x, multi_hot' !! j = Some x -> x = 1 \/ multi_hot !! j = Some x).
Proof.
  induction target_codes as [|c cs IH]; intros mh mh' H; simpl in H.
  - injection H as <-. split; [done|]. split; [|by right].
    intros j. split; [by left|]. intros [?|(c & i & Hc & _)]; [done|].
    by apply elem_of_nil in Hc.
  - destruct c as [c|]; [|done]. unfold dict_getitem in H.
    destruct (label_to_id !! c) as [i|] eqn:Hi; [|done]. simpl in H.
    destruct (list_setitem mh i 1) as [mh1|] eqn:Hset; [|done]. simpl in H.
    apply list_setitem_Ok in Hset as [Hrange ->].
    apply IH in H as (Hlen & Hone & Hval).
    rewrite length_insert in Hlen, Hone.
    set (k := Z.to_nat (py_index (length mh) i)) in *.
    assert (Z.of_nat k = py_index (length mh) i /\ (k < length mh)%nat) as [Hk Hklt].
    { subst k. unfold py_index in *. case_bool_decide; lia. }
    split; [done|]. split.
    + intros j. rewrite Hone. split.
      * intros [Hj|(c' & i' & Hc' & Hi' & Hidx)].
        -- destruct (decide (k = j)) as [<-|Hne].
           ++ right. exists c, i. split; [left|done].
           ++ left. by rewrite list_lookup_insert_ne in Hj.
        -- right. exists c', i'. split; [by right|done].
      * intros [Hj|(c' & i' & Hc' & Hi' & Hidx)].
        -- left. destruct (decide (k = j)) as [<-|Hne].
           ++ by apply list_lookup_insert_eq.
           ++ by rewrite list_lookup_insert_ne.
        -- apply elem_of_cons in Hc' as [[= <-]|Hc'].
           ++ left. assert (k = j) as <- by (simplify_eq; lia).
              by apply list_lookup_insert_eq.
           ++ right. by exists c', i'.
    + intros j x Hx. apply Hval in Hx as [?|Hx]; [by left|].
      destruct (decide (k = j)) as [<-|Hne].
      * rewrite list_lookup_insert_eq in Hx by done. left. congruence.
      * right. by rewrite list_lookup_insert_ne in Hx.
Qed.

(** With indices in range the loop of lines 69 and 70 does not raise. *)
Lemma set_targets_total label_to_id target_codes : forall multi_hot,
  (forall c, c ∈ target_codes ->
     exists s i, c = Some s /\ label_to_id !! s = Some i /\
                 0 <= i < Z.of_nat (length multi_hot)) ->
  exists multi_hot', set_targets label_to_id multi_hot target_codes = Ok multi_hot'.
Proof.
  induction target_codes as [|c cs IH]; intros mh Hin; simpl; [by eexists|].
  destruct (Hin c) as (s & i & -> & Hi & Hrange); [by left|].
  unfold dict_getitem. rewrite Hi. simpl.
  rewrite list_setitem_in_range by done. simpl.
  apply IH. intros c' Hc'. rewrite length_insert. apply Hin. by right.
Qed.

(** *** The two loops *)

Lemma for_years_Ok dt label_to_id H min_year pid g years : forall rows rows',
  for_years dt label_to_id H min_year pid g years rows = Ok rows' ->
  (forall e, e ∈ rows' <->
     e ∈ rows \/ exists Y, Y ∈ years /\ example_for label_to_id H min_year pid g Y e) /\
  (forall Y, Y ∈ years ->
     dt = int32 /\ 1 <= H /\
     (min_year <= Y - H -> exists e, example_for label_to_id H min_year pid g Y e)).
Proof.
  induction years as [|Y ys IH]; intros rows rows' Hrun; simpl in Hrun.
  { injection Hrun as <-. split.
    - intros e. split; [by left|]. intros [?|(Y & HY & _)]; [done|].
      by apply elem_of_nil in HY.
    - intros Y HY. by apply elem_of_nil in HY. }
  destruct dt; [|done]. simpl in Hrun.
  replace (Y - (Y - H)) with H in Hrun by lia.
  destruct (decide (0 < H)) as [HH|HH];
    [|by rewrite py_min_range_empty in Hrun by lia].
  rewrite py_min_range in Hrun by done. simpl in Hrun.
  case_bool_decide as Hlo.
  - apply IH in Hrun as [Hmem Hyears]. split.
    + intros e. rewrite Hmem. split.
      * intros [?|(Y' & HY' & Hex)]; [by left|].
        right. exists Y'. split; [by right|done].
      * intros [?|(Y' & HY' & Hex)]; [by left|].
        apply elem_of_cons in HY' as [->|HY'].
        -- destruct Hex as [? _]. lia.
        -- right. by exists Y'.
    + intros Y' [->|HY']%elem_of_cons; [|by apply Hyears].
      split; [done|]. split; [lia|]. intros ?. lia.
  - destruct (set_targets _ _ _) as [mh|] eqn:Hmh; [|done]. simpl in Hrun.
    apply IH in Hrun as [Hmem Hyears].
    assert (example_for label_to_id H min_year pid g Y
              {| seq_patient_id := pid; target_year := Y;
                 hist_years := seqZ (Y - H) H;
                 hist_codes := codes_of_year g <$> seqZ (Y - H) H;
                 target_multi_hot := mh |}) as Hex.
    { split; [lia|]. by exists mh. }
    split.
    + intros e. rewrite Hmem, elem_of_app, list_elem_of_singleton. split.
      * intros [[?| ->]|(Y' & HY' & Hex')].
        -- by left.
        -- right. exists Y. split; [by left|done].
        -- right. exists Y'. split; [by right|done].
      * intros [?|(Y' & HY' & Hex')]; [by left; left|].
        apply elem_of_cons in HY' as [->|HY'].
        -- left. right. destruct Hex' as (_ & mh' & Hmh' & ->). congruence.
        -- right. by exists Y'.
    + intros Y' [->|HY']%elem_of_cons; [|by apply Hyears].
      split; [done|]. split; [lia|]. intros _. by eexists.
Qed.

Lemma for_years_total label_to_id H min_year pid g years : forall rows,
  1 <= H ->
  (forall Y, Y ∈ years -> min_year <= Y - H ->
     exists mh, set_targets label_to_id (replicate (size label_to_id) 0)
                  (target_codes_of g Y) = Ok mh) ->
  exists rows', for_years int32 label_to_id H min_year pid g years rows = Ok rows'.
Proof.
  induction years as [|Y ys IH]; intros rows HH Hset; simpl; [by eexists|].
  replace (Y - (Y - H)) with H by lia.
  rewrite py_min_range by lia. simpl.
  case_bool_decide as Hlo.
  - apply IH; [done|]. intros Y' HY'. apply Hset. by right.
  - destruct (Hset Y) as [mh ->]; [by left|lia|]. simpl.
    apply IH; [done|]. intros Y' HY'. apply Hset. by right.
Qed.

Lemma for_patients_Ok dt label_to_id H min_year groups : forall rows rows',
  for_patients dt label_to_id H min_year groups rows = Ok rows' ->
  (forall e, e ∈ rows' <->
     e ∈ rows \/
     exists pid g Y, (pid, g) ∈ groups /\ Y ∈ group_years g /\
                     example_for label_to_id H min_year pid g Y e) /\
  (forall pid g Y, (pid, g) ∈ groups -> Y ∈ group_years g ->
     dt = int32 /\ 1 <= H /\
     (min_year <= Y - H -> exists e, example_for label_to_id H min_year pid g Y e)).
Proof.
  induction groups as [|[pid g] gs IH]; intros rows rows' Hrun; simpl in Hrun.
  { injection Hrun as <-. split.
    - intros e. split; [by left|]. intros [?|(? & ? & ? & Hin & _)]; [done|].
      by apply elem_of_nil in Hin.
    - intros ? ? ? Hin. by apply elem_of_nil in Hin. }
  destruct (for_years _ _ _ _ _ _ _ _) as [rows1|] eqn:Hyears; [|done].
  simpl in Hrun. apply for_years_Ok in Hyears as [Hmem1 Hy1].
  apply IH in Hrun as [Hmem Hy]. split.
  - intros e. rewrite Hmem, Hmem1. split.
    + intros [[?|(Y & HY & Hex)]|(pid' & g' & Y & Hin & HY & Hex)].
      * by left.
      * right. exists pid, g, Y. split; [by left|done].
      * right. exists pid', g', Y. split; [by right|done].
    + intros [?|(pid' & g' & Y & Hin & HY & Hex)]; [by left; left|].
      apply elem_of_cons in Hin as [[= -> ->]|Hin].
      * left. right. by exists Y.
      * right. by exists pid', g', Y.
  - intros pid' g' Y [[= -> ->]|Hin]%elem_of_cons HY; [by apply Hy1|].
    by eapply Hy.
Qed.

Lemma for_patients_total label_to_id H min_year groups : forall rows,
  1 <= H ->
  (forall pid g Y, (pid, g) ∈ groups -> Y ∈ group_years g -> min_year <= Y - H ->
     exists mh, set_targets label_to_id (replicate (size label_to_id) 0)
                  (target_codes_of g Y) = Ok mh) ->
  exists rows', for_patients int32 label_to_id H min_year groups rows = Ok rows'.
Proof.
  induction groups as [|[pid g] gs IH]; intros rows HH Hset; simpl; [by eexists|].
  destruct (for_years_total label_to_id H min_year pid g (group_years g) rows)
    as [rows1 ->]; [done| |].
  - intros Y HY. apply (Hset pid g Y); [by left|done].
  - simpl. apply IH; [done|]. intros pid' g' Y Hin. apply (Hset pid' g' Y). by right.
Qed.

(** *** The working frame and its groups *)

Lemma zip_fmap_diag {A B} (f : A -> B) (l : list A) :
  zip l (f <$> l) = (fun x => (x, f x)) <$> l.
Proof. induction l as [|x l IH]; csimpl; [done|]. by rewrite IH. Qed.

Lemma filter_fmap {A B} (f : A -> B) (P : B -> Prop) `{forall y, Decision (P y)}
    (l : list A) :
  filter P (f <$> l) = f <$> filter (fun x => P (f x)) l.
Proof.
  induction l as [|x l IH]; [done|]. rewrite fmap_cons, !filter_cons.
  destruct (decide (P (f x))); by rewrite IH.
Qed.

Lemma omap_fmap {A B C} (f : B -> option C) (g : A -> B) (l : list A) :
  omap f (g <$> l) = omap (fun x => f (g x)) l.
Proof.
  induction l as [|x l IH]; [done|]. csimpl. by rewrite IH.
Qed.

Section FrameProps.

Variable cell_year : string -> option Z.

Lemma year_in_range_iff min_year max_year ev :
  year_in_range cell_year min_year max_year ev <->
  exists y, cell_year (visit_date ev) = Some y /\ min_year <= y <= max_year.
Proof.
  unfold year_in_range, year_ge, year_le.
  destruct (cell_year (visit_date ev)) as [y|].
  - rewrite andb_true_iff, !bool_decide_eq_true.
    split; [intros [? ?]; exists y; split; [done|lia]|].
    intros (? & [= <-] & ?). lia.
  - split; [done|]. by intros (? & ? & _).
Qed.

Lemma working_frame_eq df_events label_to_id min_year max_year :
  working_frame cell_year df_events label_to_id min_year max_year =
  (if bool_decide (dates_parse cell_year df_events) then int32 else float64,
   mk_row cell_year label_to_id
     <$> filter (year_in_range cell_year min_year max_year) df_events).
Proof.
  unfold working_frame, to_year. f_equal.
  - rewrite <- list_fmap_compose.
    rewrite (bool_decide_ext _ (dates_parse cell_year df_events)); [done|].
    unfold dates_parse. by rewrite Forall_fmap.
  - rewrite <- list_fmap_compose, zip_fmap_diag.
    rewrite filter_fmap, <- list_fmap_compose. done.
Qed.

Lemma elem_of_groupby_patient_id (df : list Row) pid g :
  (pid, g) ∈ groupby_patient_id df <->
  (exists r, r ∈ df /\ patient_id (event r) = pid) /\
  g = filter (fun r => patient_id (event r) = pid) df.
Proof.
  unfold groupby_patient_id, sorted_str. rewrite list_elem_of_fmap.
  setoid_rewrite merge_sort_Permutation.
  setoid_rewrite elem_of_unique. setoid_rewrite list_elem_of_fmap.
  split.
  - intros (? & [= <- ->] & r & -> & Hr). split; [by exists r|done].
  - intros [(r & Hr & <-) ->]. eexists. split; [done|]. by exists r.
Qed.

Lemma elem_of_group_years (g : list Row) Y :
  Y ∈ group_years g <-> exists r, r ∈ g /\ year r = Some Y.
Proof.
  unfold group_years, sorted_int.
  by rewrite merge_sort_Permutation, elem_of_unique, list_elem_of_omap.
Qed.

End FrameProps.

(** *** What the builder emits *)

Section EmittedRows.

Variable cell_year : string -> option Z.
Variable sort_values_year : list Row -> list Row.
Hypothesis sort_values_year_perm : forall df, sort_values_year df ≡ₚ df.

Lemma elem_of_group_of df_events label_to_id min_year max_year pid r :
  r ∈ group_of cell_year sort_values_year df_events label_to_id min_year max_year pid <->
  exists ev, ev ∈ df_events /\ r = mk_row cell_year label_to_id ev /\
             year_in_range cell_year min_year max_year ev /\
             patient_id ev = pid.
Proof using sort_values_year_perm.
  unfold group_of.
  rewrite list_elem_of_filter, sort_values_year_perm, list_elem_of_fmap.
  setoid_rewrite list_elem_of_filter. split.
  - intros [Hpid (ev & -> & Hrange & Hev)]. by exists ev.
  - intros (ev & Hev & -> & Hrange & Hpid). split; [done|]. by exists ev.
Qed.

Lemma group_years_candidate df_events label_to_id min_year max_year pid Y :
  Y ∈ group_years (group_of cell_year sort_values_year df_events label_to_id min_year max_year pid) <->
  candidate cell_year df_events min_year max_year pid Y.
Proof using sort_values_year_perm.
  rewrite elem_of_group_years. setoid_rewrite elem_of_group_of.
  unfold candidate. split.
  - intros (r & (ev & Hev & -> & Hrange & Hpid) & Hy). simpl in Hy.
    apply year_in_range_iff in Hrange as (y & Hy' & Hr).
    assert (y = Y) as -> by congruence. by exists ev.
  - intros (ev & Hev & Hpid & Hy & Hr).
    exists (mk_row cell_year label_to_id ev). split; [|done].
    exists ev. repeat split; try done.
    apply year_in_range_iff. by exists Y.
Qed.

Lemma elem_of_groups df_events label_to_id min_year max_year pid g :
  (pid, g) ∈ groupby_patient_id
               (sort_values_year
                  (mk_row cell_year label_to_id
                     <$> filter (year_in_range cell_year min_year max_year) df_events)) ->
  g = group_of cell_year sort_values_year df_events label_to_id min_year max_year pid.
Proof. by intros [_ ->]%elem_of_groupby_patient_id. Qed.

Lemma group_of_in_groups df_events label_to_id min_year max_year pid Y :
  candidate cell_year df_events min_year max_year pid Y ->
  (pid, group_of cell_year sort_values_year df_events label_to_id min_year max_year pid)
  ∈ groupby_patient_id
      (sort_values_year
         (mk_row cell_year label_to_id
            <$> filter (year_in_range cell_year min_year max_year) df_events)).
Proof using sort_values_year_perm.
  intros (ev & Hev & Hpid & Hy & Hr).
  apply elem_of_groupby_patient_id. split; [|done].
  exists (mk_row cell_year label_to_id ev). split; [|done].
  rewrite sort_values_year_perm. apply list_elem_of_fmap_2.
  apply list_elem_of_filter. split; [|done].
  apply year_in_range_iff. by exists Y.
Qed.

(** The emitted examples are the examples of the candidate target years;
    and when the builder gets through a table with a candidate, every date
    has parsed and the history length is positive. *)
Lemma emitted_rows_Ok df_events label_to_id H min_year max_year rows :
  emitted_rows cell_year sort_values_year df_events label_to_id H min_year max_year = Ok rows ->
  (forall e, e ∈ rows <->
     exists pid Y,
       candidate cell_year df_events min_year max_year pid Y /\
       example_for label_to_id H min_year pid
         (group_of cell_year sort_values_year df_events label_to_id min_year max_year pid) Y e) /\
  (forall pid Y, candidate cell_year df_events min_year max_year pid Y ->
     dates_parse cell_year df_events /\ 1 <= H /\
     (min_year <= Y - H ->
      exists e, example_for label_to_id H min_year pid
                  (group_of cell_year sort_values_year df_events label_to_id min_year max_year pid) Y e)).
Proof using sort_values_year_perm.
  unfold emitted_rows. rewrite working_frame_eq.
  intros [Hmem Hcand]%for_patients_Ok. split.
  - intros e. rewrite Hmem. split.
    + intros [Hnil|(pid & g & Y & Hg & HY & Hex)]; [by apply elem_of_nil in Hnil|].
      apply elem_of_groups in Hg as ->.
      exists pid, Y. split; [|done]. by eapply group_years_candidate.
    + intros (pid & Y & HY & Hex). right.
      exists pid, (group_of cell_year sort_values_year df_events label_to_id min_year max_year pid), Y.
      split; [by eapply group_of_in_groups|]. split; [|done].
      by apply group_years_candidate.
  - intros pid Y HY.
    destruct (Hcand pid (group_of cell_year sort_values_year df_events label_to_id min_year max_year pid) Y)
      as (Hdt & HH & Hex).
    + by eapply group_of_in_groups.
    + by apply group_years_candidate.
    + split; [|done]. by case_bool_decide.
Qed.

Lemma codes_of_year_group df_events label_to_id min_year max_year pid y :
  min_year <= y <= max_year ->
  codes_of_year (group_of cell_year sort_values_year df_events label_to_id min_year max_year pid) y
  ≡ₚ omap code_norm (events_in_year cell_year df_events pid y).
Proof using sort_values_year_perm.
  intros Hy. unfold codes_of_year, group_of, events_in_year.
  rewrite sort_values_year_perm.
  rewrite list_filter_filter, filter_fmap, omap_fmap, list_filter_filter.
  simpl. erewrite list_filter_iff; [done|].
  intros ev. simpl. rewrite year_in_range_iff. split.
  - intros [[? ?] _]. done.
  - intros [? ?]. split; [done|]. by exists y.
Qed.

Lemma target_codes_group df_events label_to_id min_year max_year pid Y c :
  min_year <= Y <= max_year ->
  c ∈ target_codes_of (group_of cell_year sort_values_year df_events label_to_id min_year max_year pid) Y <->
  exists s, c = Some s /\ had_code cell_year df_events pid Y s /\
            is_Some (label_to_id !! s).
Proof using sort_values_year_perm.
  intros HY. unfold target_codes_of, had_code, events_in_year.
  rewrite elem_of_unique, !list_elem_of_fmap.
  setoid_rewrite list_elem_of_fmap. setoid_rewrite list_elem_of_filter.
  setoid_rewrite elem_of_group_of. split.
  - intros (r & -> & [Hy Hin] & ev & Hev & -> & Hrange & Hpid). simpl in *.
    unfold isin in Hin. destruct (code_norm ev) as [s|] eqn:Hs; [|done].
    apply bool_decide_eq_true in Hin.
    exists s. split; [done|]. split; [|done]. exists ev. by rewrite Hs.
  - intros (s & -> & (ev & Hs & [Hpid Hy] & Hev) & Hin).
    exists (mk_row cell_year label_to_id ev). simpl. split; [done|]. split.
    + split; [done|]. unfold isin. rewrite <- Hs. by apply bool_decide_eq_true.
    + exists ev. repeat split; try done. apply year_in_range_iff. by exists Y.
Qed.

End EmittedRows.

Section SequenceTheorems.

Variable cell_year : string -> option Z.
Variable sort_values_year : list Row -> list Row.
Hypothesis sort_values_year_perm : forall df, sort_values_year df ≡ₚ df.

(** With a positive history length, a well-formed vocabulary and dates that
    all parse, the loops run to their end. *)
Lemma emitted_rows_total df_events label_to_id H min_year max_year :
  1 <= H -> vocab_wf label_to_id -> dates_parse cell_year df_events ->
  exists rows,
    emitted_rows cell_year sort_values_year df_events label_to_id H min_year max_year
    = Ok rows.
Proof using sort_values_year_perm.
  intros HH Hwf Hdates. unfold emitted_rows. rewrite working_frame_eq.
  rewrite bool_decide_eq_true_2 by done.
  apply for_patients_total; [done|].
  intros pid g Y Hg HY _. apply elem_of_groups in Hg as ->.
  apply group_years_candidate in HY as HY'; [|done].
  destruct HY' as (_ & _ & _ & _ & Hrange).
  apply set_targets_total. intros c Hc.
  apply target_codes_group in Hc as (s & -> & _ & [i Hi]); [|done..].
  exists s, i. rewrite length_replicate. split; [done|]. split; [done|].
  by apply (Hwf s).
Qed.

Lemma seqZ_increasing (m n : Z) (i j : nat) (a b : Z) :
  seqZ m n !! i = Some a -> seqZ m n !! j = Some b -> (i < j)%nat -> a < b.
Proof. intros [-> _]%lookup_seqZ [-> _]%lookup_seqZ. lia. Qed.

(** The window rule, on the runs that end. For every patient and every
    candidate target year Y (a year of [min_year, max_year] in which the
    patient has an event), a run that gets through the loops has emitted an
    example for (patient, Y) if and only if [Y - H >= min_year], the
    boundary [Y - H = min_year] included; and in every emitted example
    [hist_years] is exactly [Y-H, ..., Y-1]: of length H, position i holding
    [Y - H + i], strictly increasing, up to [Y - 1], with no value below
    [min_year]. The loops are got through whenever the history length is at
    least one, the vocabulary has its indices in [0, K) and the dates all
    parse; what happens when a date does not parse is further down. *)
Theorem window_check_and_contiguity (df_events : list Event)
    (label_to_id : gmap string Z) (H min_year max_year : Z) :
  (forall rows,
     emitted_rows cell_year sort_values_year df_events label_to_id H min_year max_year
     = Ok rows ->
     (forall pid Y, candidate cell_year df_events min_year max_year pid Y ->
        ((exists e, e ∈ rows /\ seq_patient_id e = pid /\ target_year e = Y)
         <-> min_year <= Y - H)) /\
     (forall e, e ∈ rows ->
        let Y := target_year e in
        candidate cell_year df_events min_year max_year (seq_patient_id e) Y /\
        hist_years e = seqZ (Y - H) H /\
        Z.of_nat (length (hist_years e)) = H /\
        (forall i : nat, Z.of_nat i < H ->
           hist_years e !! i = Some (Y - H + Z.of_nat i)) /\
        (forall (i j : nat) a b, hist_years e !! i = Some a ->
           hist_years e !! j = Some b -> (i < j)%nat -> a < b) /\
        (forall y, y ∈ hist_years e -> min_year <= y <= Y - 1))) /\
  (1 <= H -> vocab_wf label_to_id -> dates_parse cell_year df_events ->
   exists rows,
     emitted_rows cell_year sort_values_year df_events label_to_id H min_year max_year
     = Ok rows).
Proof using sort_values_year_perm.
  split; [|apply emitted_rows_total].
  intros rows [Hmem Hcand]%emitted_rows_Ok; [|done].
  split.
  - intros pid Y HY. split.
    + intros (e & He & <- & <-).
      apply Hmem in He as (pid & Y & _ & Hlo & mh & _ & ->). done.
    + intros Hlo. destruct (Hcand pid Y HY) as (_ & _ & Hex).
      destruct (Hex Hlo) as [e He]. exists e. split.
      * apply Hmem. by exists pid, Y.
      * by destruct He as (_ & mh & _ & ->).
  - intros e He. apply Hmem in He as (pid & Y & HY & Hlo & mh & _ & ->).
    destruct (Hcand pid Y HY) as (_ & HH & _).
    simpl. split; [done|]. split; [done|].
    split; [rewrite length_seqZ; lia|]. split; [|split].
    + intros i Hi. by apply lookup_seqZ_lt.
    + intros i j a b. apply seqZ_increasing.
    + intros y Hy%elem_of_seqZ. lia.
Qed.

Lemma elem_of_omap_fmap {A B} (f : A -> option B) (l : list A) (y : B) :
  y ∈ omap f l <-> Some y ∈ f <$> l.
Proof.
  rewrite list_elem_of_omap, list_elem_of_fmap. naive_solver.
Qed.



(** The history of the example of a candidate year, position by position. *)
Lemma example_for_history df_events label_to_id H min_year max_year pid Y e :
  candidate cell_year df_events min_year max_year pid Y ->
  example_for label_to_id H min_year pid
    (group_of cell_year sort_values_year df_events label_to_id min_year max_year pid)
    Y e ->
  length (hist_codes e) = length (hist_years e) /\
  forall i : nat,
    (i < length (hist_years e))%nat ->
    exists y codes,
      hist_years e !! i = Some y /\ hist_codes e !! i = Some codes /\
      y = Y - H + Z.of_nat i /\ Y - H <= y <= Y - 1 /\
      codes ≡ₚ omap code_norm (events_in_year cell_year df_events pid y).
Proof using sort_values_year_perm.
  intros (_ & _ & _ & _ & Hrange) (Hlo & mh & _ & ->). simpl.
  split; [by rewrite length_fmap|].
  intros i Hi. rewrite length_seqZ in Hi.
  exists (Y - H + Z.of_nat i), (codes_of_year
    (group_of cell_year sort_values_year df_events label_to_id min_year max_year pid)
    (Y - H + Z.of_nat i)).
  assert (seqZ (Y - H) H !! i = Some (Y - H + Z.of_nat i)) as Hy
    by (apply lookup_seqZ_lt; lia).
  split; [done|]. split; [by rewrite list_lookup_fmap, Hy|].
  split; [done|]. split; [lia|].
  apply codes_of_year_group; [done|lia].
Qed.

(** C6. In every emitted example (patient, Y), [hist_codes] is aligned with
    [hist_years], and the codes at a position are, up to their order,
    exactly the codes of the patient's events of the year at that position,
    a year of [Y-H, Y-1]: every history code comes from an event of a year
    before Y, and no event of a year Y or later puts a code anywhere in
    the history. *)
Theorem history_precedes_target (df_events : list Event)
    (label_to_id : gmap string Z) (H min_year max_year : Z)
    (rows : list SeqRow) (e : SeqRow) :
  emitted_rows cell_year sort_values_year df_events label_to_id H min_year max_year
  = Ok rows ->
  e ∈ rows ->
  let pid := seq_patient_id e in
  let Y := target_year e in
  length (hist_codes e) = length (hist_years e) /\
  (forall (i : nat) codes,
     hist_codes e !! i = Some codes ->
     exists y, hist_years e !! i = Some y /\ Y - H <= y <= Y - 1 /\
               codes ≡ₚ omap code_norm (events_in_year cell_year df_events pid y)) /\
  (forall (i : nat) codes c,
     hist_codes e !! i = Some codes -> c ∈ codes ->
     exists ev y, ev ∈ df_events /\ patient_id ev = pid /\
                  code_norm ev = Some c /\
                  cell_year (visit_date ev) = Some y /\
                  hist_years e !! i = Some y /\ y < Y).
Proof using sort_values_year_perm.
  intros [Hmem _]%emitted_rows_Ok He pid Y; [|done]. subst pid Y.
  apply Hmem in He as (pid & Y & HY & Hex).
  assert (seq_patient_id e = pid /\ target_year e = Y) as [-> ->].
  { by destruct Hex as (_ & mh & _ & ->). }
  destruct (example_for_history _ _ _ _ _ _ _ _ HY Hex) as [Hlen Hpos].
  assert (forall (i : nat) codes,
     hist_codes e !! i = Some codes ->
     exists y, hist_years e !! i = Some y /\ Y - H <= y <= Y - 1 /\
               codes ≡ₚ omap code_norm (events_in_year cell_year df_events pid y))
    as Hcodes.
  { intros i codes Hi.
    destruct (Hpos i) as (y & codes' & Hy & Hc & _ & Hwin & Hperm).
    - rewrite <- Hlen. by eapply lookup_lt_Some.
    - exists y. by simplify_eq. }
  split; [done|]. split; [done|].
  intros i codes c Hi Hc.
  destruct (Hcodes i codes Hi) as (y & Hy & Hwin & Hperm).
  rewrite Hperm in Hc. apply list_elem_of_omap in Hc as (ev & Hev & Hcode).
  apply list_elem_of_filter in Hev as [[Hpid Hyear] Hev].
  exists ev, y. repeat split; try done. lia.
Qed.

(** C8. A code outside the vocabulary is in the history of an example
    whenever the patient had it in a year of the window, yet no one of
    [target_multi_hot] is owed to it, each being at the position of a code
    of the target year that has an index, and it has no index of its own to
    be produced as a label: the vocabulary filters the targets and not the
    history. *)
Theorem out_of_vocab_history_not_target (df_events : list Event)
    (label_to_id : gmap string Z) (H min_year max_year : Z)
    (rows : list SeqRow) (e : SeqRow) (c : string) :
  emitted_rows cell_year sort_values_year df_events label_to_id H min_year max_year
  = Ok rows ->
  e ∈ rows ->
  label_to_id !! c = None ->
  let pid := seq_patient_id e in
  let Y := target_year e in
  (forall y, Y - H <= y < Y -> had_code cell_year df_events pid y c ->
     exists (i : nat) codes,
       hist_years e !! i = Some y /\ hist_codes e !! i = Some codes /\ c ∈ codes) /\
  (forall j : nat, target_multi_hot e !! j = Some 1 ->
     exists c' i, c' <> c /\ label_to_id !! c' = Some i /\
                  had_code cell_year df_events pid Y c' /\
                  py_index (size label_to_id) i = Z.of_nat j) /\
  (forall i, label_to_id !! c <> Some i).
Proof using sort_values_year_perm.
  intros [Hmem _]%emitted_rows_Ok He Hout pid Y; [|done]. subst pid Y.
  apply Hmem in He as (pid & Y & HY & Hex).
  assert (seq_patient_id e = pid /\ target_year e = Y) as [-> ->].
  { by destruct Hex as (_ & mh & _ & ->). }
  split; [|split].
  - intros y Hy Hhad.
    destruct (example_for_history _ _ _ _ _ _ _ _ HY Hex) as [Hlen Hpos].
    destruct (Hpos (Z.to_nat (y - (Y - H))))
      as (y' & codes & Hy' & Hc & -> & _ & Hperm).
    { destruct Hex as (_ & mh & _ & ->). simpl. rewrite length_seqZ. lia. }
    exists (Z.to_nat (y - (Y - H))), codes.
    replace (Y - H + Z.of_nat (Z.to_nat (y - (Y - H)))) with y in * by lia.
    split; [done|]. split; [done|].
    rewrite Hperm. by apply elem_of_omap_fmap.
  - destruct HY as (_ & _ & _ & _ & Hrange).
    destruct Hex as (_ & mh & Hmh & ->). simpl.
    apply set_targets_Ok in Hmh as (_ & Hone & _).
    intros j [[? _]%lookup_replicate|(c' & i & Hc' & Hi & Hidx)]%Hone; [done|].
    apply target_codes_group in Hc' as (s & [= <-] & Hhad & _); [|done..].
    rewrite length_replicate in Hidx.
    exists c', i. split; [congruence|done].
  - congruence.
Qed.

(** *** The temporal split *)

Lemma getitem_mask_filter (rows : list SeqRow) (f : Z -> bool) :
  records (getitem_mask (pd_DataFrame rows) (f <$> (target_year <$> rows)))
  = filter (fun e => f (target_year e) = true) rows.
Proof.
  unfold getitem_mask, pd_DataFrame, records.
  rewrite <- list_fmap_compose, zip_fmap_diag, filter_fmap, <- list_fmap_compose.
  apply list_fmap_id.
Qed.

Lemma getitem_target_year_rows (rows : list SeqRow) :
  rows <> [] ->
  getitem_target_year (pd_DataFrame rows) = Ok (target_year <$> rows).
Proof. by destruct rows. Qed.

Lemma zip_with_andb_fmap {A} (f g : A -> bool) (l : list A) :
  zip_with andb (f <$> l) (g <$> l) = (fun x => f x && g x) <$> l.
Proof. induction l as [|x l IH]; csimpl; [done|]. by rewrite IH. Qed.

Lemma split_three_Permutation (t v : Z) (rows : list SeqRow) :
  t < v ->
  filter (fun e => target_year e <= t) rows
  ++ filter (fun e => t < target_year e <= v) rows
  ++ filter (fun e => v < target_year e) rows
  ≡ₚ rows.
Proof.
  intros Htv. induction rows as [|e rows IH]; [done|].
  rewrite !filter_cons.
  destruct (decide (target_year e <= t)).
  - rewrite !decide_False by lia. simpl. by rewrite IH.
  - destruct (decide (target_year e <= v)).
    + rewrite decide_True, decide_False by lia.
      rewrite <- app_comm_cons, <- Permutation_middle. by rewrite IH.
    + rewrite decide_False, decide_True by lia.
      rewrite app_assoc, <- Permutation_middle, <- app_assoc. by rewrite IH.
Qed.

(** Lines 80 to 87 on a non-empty list of rows, with both cut-offs bound. *)
Lemma build_yearly_sequences_split G df_events label_to_id H min_year max_year
    rows t v :
  emitted_rows cell_year sort_values_year df_events label_to_id H min_year max_year
  = Ok rows ->
  rows <> [] -> train_until G = Some t -> val_until G = Some v ->
  exists train val test,
    build_yearly_sequences cell_year sort_values_year G df_events label_to_id
      H min_year max_year = Ok (train, val, test) /\
    records train = filter (fun e => target_year e <= t) rows /\
    records val = filter (fun e => t < target_year e <= v) rows /\
    records test = filter (fun e => v < target_year e) rows.
Proof.
  intros Hrows Hne Ht Hv. unfold build_yearly_sequences.
  rewrite Hrows, Ht, Hv. unfold mbind, result_bind, global_name.
  rewrite (getitem_target_year_rows rows Hne).
  eexists _, _, _. split; [done|].
  rewrite zip_with_andb_fmap, !getitem_mask_filter.
  split; [|split]; apply list_filter_iff; intros e;
    by rewrite ?andb_true_iff, !bool_decide_eq_true.
Qed.

(** The split, once somebody has bound the cut-offs. With both global
    names bound and [train_until < val_until], the builder returns three
    sets, and every emitted example is, by its own [target_year], in
    exactly one of them: in train if and only if
    [target_year <= train_until], in validation if and only if
    [train_until < target_year <= val_until], in test if and only if
    [target_year > val_until]. No example is in two sets and none is lost.
    The module as the repository has it binds neither name; see further
    down. *)
Theorem temporal_split (G : Globals) (df_events : list Event)
    (label_to_id : gmap string Z) (H min_year max_year : Z)
    (rows : list SeqRow) (t v : Z) :
  train_until G = Some t -> val_until G = Some v -> t < v ->
  emitted_rows cell_year sort_values_year df_events label_to_id H min_year max_year
  = Ok rows ->
  rows <> [] ->
  exists train val test,
    build_yearly_sequences cell_year sort_values_year G df_events label_to_id
      H min_year max_year = Ok (train, val, test) /\
    (forall e, e ∈ rows ->
       (e ∈ records train <-> target_year e <= t) /\
       (e ∈ records val <-> t < target_year e <= v) /\
       (e ∈ records test <-> v < target_year e)) /\
    (forall e, ~ (e ∈ records train /\ e ∈ records val) /\
               ~ (e ∈ records train /\ e ∈ records test) /\
               ~ (e ∈ records val /\ e ∈ records test)) /\
    records train ++ records val ++ records test ≡ₚ rows.
Proof.
  intros Ht Hv Htv Hrows Hne.
  destruct (build_yearly_sequences_split G df_events label_to_id H min_year
              max_year rows t v) as (train & val & test & Hrun & Htr & Hva & Hte);
    [done..|].
  exists train, val, test. split; [done|].
  rewrite Htr, Hva, Hte. split; [|split].
  - intros e He. rewrite !list_elem_of_filter. naive_solver.
  - intros e. rewrite !list_elem_of_filter. repeat split; intros [[? _] [? _]]; lia.
  - by apply split_three_Permutation.
Qed.

(** *** Empty results and non-positive history lengths *)

(** When no example is emitted, line 83 looks for a column the empty frame
    does not have. *)
Lemma no_rows_KeyError G df_events label_to_id H min_year max_year :
  emitted_rows cell_year sort_values_year df_events label_to_id H min_year max_year
  = Ok [] ->
  build_yearly_sequences cell_year sort_values_year G df_events label_to_id
    H min_year max_year = Raise (KeyError "target_year").
Proof. intros Hrows. unfold build_yearly_sequences. by rewrite Hrows. Qed.

(** What the builder returns is what it has emitted: a row is in one of
    the three returned sets if and only if the loops appended it. *)
Lemma returned_rows_are_emitted_rows G df_events label_to_id H min_year max_year
    train val test :
  build_yearly_sequences cell_year sort_values_year G df_events label_to_id
    H min_year max_year = Ok (train, val, test) ->
  exists rows,
    emitted_rows cell_year sort_values_year df_events label_to_id H min_year max_year
    = Ok rows /\
    forall e, e ∈ rows <->
              e ∈ records train \/ e ∈ records val \/ e ∈ records test.
Proof.
  intros Hrun.
  destruct (emitted_rows cell_year sort_values_year df_events label_to_id
              H min_year max_year) as [rows|] eqn:Hrows;
    [|unfold build_yearly_sequences in Hrun; by rewrite Hrows in Hrun].
  exists rows. split; [done|].
  destruct (decide (rows = [])) as [->|Hne];
    [by rewrite no_rows_KeyError in Hrun|].
  destruct (train_until G) as [t|] eqn:Ht; cycle 1.
  { unfold build_yearly_sequences in Hrun. rewrite Hrows, Ht in Hrun.
    unfold mbind, result_bind, global_name in Hrun.
    by rewrite (getitem_target_year_rows rows Hne) in Hrun. }
  destruct (val_until G) as [v|] eqn:Hv; cycle 1.
  { unfold build_yearly_sequences in Hrun. rewrite Hrows, Ht, Hv in Hrun.
    unfold mbind, result_bind, global_name in Hrun.
    by rewrite (getitem_target_year_rows rows Hne) in Hrun. }
  destruct (build_yearly_sequences_split G df_events label_to_id H min_year
              max_year rows t v) as (tr & va & te & Hrun' & Htr & Hva & Hte);
    [done..|].
  rewrite Hrun in Hrun'. injection Hrun' as <- <- <-.
  intros e. rewrite Htr, Hva, Hte, !list_elem_of_filter.
  split; [|naive_solver].
  intros He.
  destruct (decide (target_year e <= t)); [by left|].
  destruct (decide (target_year e <= v)); [right; left; split; [lia|done]|].
  right; right. split; [lia|done].
Qed.

Lemma emitted_rows_empty_table label_to_id H min_year max_year :
  emitted_rows cell_year sort_values_year [] label_to_id H min_year max_year = Ok [].
Proof using sort_values_year_perm.
  unfold emitted_rows. rewrite working_frame_eq.
  rewrite filter_nil, fmap_nil.
  by rewrite (proj1 (Permutation_nil_r _) (sort_values_year_perm [])).
Qed.

(** C4, on the code. On an empty event table the builder returns nothing:
    it raises [KeyError], whatever the vocabulary, the history length, the
    year bounds and the cut-offs. *)
Theorem empty_table_raises (G : Globals) (label_to_id : gmap string Z)
    (H min_year max_year : Z) :
  build_yearly_sequences cell_year sort_values_year G [] label_to_id
    H min_year max_year = Raise (KeyError "target_year").
Proof using sort_values_year_perm.
  apply no_rows_KeyError, emitted_rows_empty_table.
Qed.

Lemma for_years_nonpositive label_to_id H min_year pid g years rows :
  H <= 0 -> years <> [] ->
  for_years int32 label_to_id H min_year pid g years rows
  = Raise (ValueError "min() arg is an empty sequence").
Proof.
  intros HH Hne. destruct years as [|Y ys]; [done|]. simpl.
  by rewrite py_min_range_empty by lia.
Qed.

Lemma for_patients_nonpositive label_to_id H min_year groups rows :
  H <= 0 -> groups <> [] ->
  (forall pid g, (pid, g) ∈ groups -> group_years g <> []) ->
  for_patients int32 label_to_id H min_year groups rows
  = Raise (ValueError "min() arg is an empty sequence").
Proof.
  intros HH Hne Hyears. destruct groups as [|[pid g] gs]; [done|]. simpl.
  rewrite for_years_nonpositive; [done..|].
  apply (Hyears pid). by left.
Qed.

Lemma group_years_nonempty (df : list Row) pid g :
  (pid, g) ∈ groupby_patient_id df ->
  (forall r, r ∈ df -> is_Some (year r)) ->
  group_years g <> [].
Proof.
  intros [(r & Hr & Hpid) ->]%elem_of_groupby_patient_id Hsome.
  destruct (Hsome r Hr) as [y Hy].
  assert (y ∈ group_years (filter (fun r => patient_id (event r) = pid) df)) as Hin.
  { apply elem_of_group_years. exists r. split; [|done].
    by apply list_elem_of_filter. }
  intros Hnil. rewrite Hnil in Hin. by apply elem_of_nil in Hin.
Qed.

(** C5, on the code. With a history length of zero or less the builder
    never returns: every call raises, and when some patient has an event in
    the valid range (and the dates parse) it is the [ValueError] of [min] on
    the empty window, raised inside the loop over the patient's years. *)
Theorem nonpositive_history_raises (G : Globals) (df_events : list Event)
    (label_to_id : gmap string Z) (H min_year max_year : Z) :
  H <= 0 ->
  (exists e,
     build_yearly_sequences cell_year sort_values_year G df_events label_to_id
       H min_year max_year = Raise e) /\
  ((exists pid Y, candidate cell_year df_events min_year max_year pid Y) ->
   dates_parse cell_year df_events ->
   build_yearly_sequences cell_year sort_values_year G df_events label_to_id
     H min_year max_year = Raise (ValueError "min() arg is an empty sequence")).
Proof using sort_values_year_perm.
  intros HH. split.
  - destruct (emitted_rows cell_year sort_values_year df_events label_to_id
                H min_year max_year) as [rows|e] eqn:Hrows.
    + exists (KeyError "target_year"). apply no_rows_KeyError.
      rewrite Hrows. f_equal.
      apply emitted_rows_Ok in Hrows as [Hmem Hcand]; [|done].
      destruct rows as [|e rows]; [done|].
      destruct (proj1 (Hmem e)) as (pid & Y & HY & _); [by left|].
      destruct (Hcand pid Y HY) as (_ & ? & _). lia.
    + exists e. unfold build_yearly_sequences. by rewrite Hrows.
  - intros (pid & Y & HY) Hdates.
    unfold build_yearly_sequences, emitted_rows. rewrite working_frame_eq.
    rewrite bool_decide_eq_true_2 by done.
    rewrite for_patients_nonpositive; [done..| |].
    + intros Hnil.
      pose proof (group_of_in_groups cell_year sort_values_year
                    sort_values_year_perm df_events label_to_id min_year max_year
                    pid Y HY) as Hin.
      rewrite Hnil in Hin. by apply elem_of_nil in Hin.
    + intros pid' g Hg. eapply group_years_nonempty; [done|].
      intros r. rewrite sort_values_year_perm, list_elem_of_fmap.
      intros (ev & -> & [(y & Hy & _)%year_in_range_iff _]%list_elem_of_filter).
      by exists y.
Qed.

End SequenceTheorems.

(** *** The builder on the small table *)

Lemma merge_sort_year_perm df : merge_sort_year df ≡ₚ df.
Proof. apply merge_sort_Permutation. Qed.


Lemma demo_dates_parse : dates_parse iso_year demo_events.
Proof. repeat constructor; by eexists. Qed.

(** Scenarios B and C of the specification: the window of 2020 is
    [2018, 2019], the window of 2019 starts at [min_year] and is kept. *)
Example emitted_rows_demo :
  emitted_rows iso_year merge_sort_year demo_events demo_vocab 2 2017 2020
  = Ok demo_rows.
Proof. vm_compute. reflexivity. Qed.

(** Scenario D: with cut-offs 2018 and 2019, target year 2019 goes to
    validation and 2020 to test. *)
Example build_yearly_sequences_demo :
  exists cols,
    build_yearly_sequences iso_year merge_sort_year demo_globals demo_events
      demo_vocab 2 2017 2020
    = Ok ({| columns := cols; records := [] |},
          {| columns := cols;
             records := [demo_row "P" 2019 [[]; ["X"]] [0];
                         demo_row "Q" 2019 [[]; []] [1]] |},
          {| columns := cols; records := [demo_row "P" 2020 [["X"]; ["Y"]] [1]] |}).
Proof. eexists. vm_compute. reflexivity. Qed.

(** An empty vocabulary is no obstacle when examples are emitted: the
    vectors are empty. *)
Example build_yearly_sequences_empty_vocab :
  exists train val test,
    build_yearly_sequences iso_year merge_sort_year demo_globals demo_events
      ∅ 2 2017 2020 = Ok (train, val, test) /\
    Forall (fun e => target_multi_hot e = [])
           (records train ++ records val ++ records test).
Proof. eexists _, _, _. split; [vm_compute; reflexivity|]. by repeat constructor. Qed.

(** The cut-offs are global names: unbound, line 83 raises. *)
Example build_yearly_sequences_unbound_cutoffs :
  build_yearly_sequences iso_year merge_sort_year
    {| train_until := None; val_until := None |} demo_events demo_vocab 2 2017 2020
  = Raise (NameError "train_until").
Proof. vm_compute. reflexivity. Qed.

(** A table in which no year has a full window emits nothing, and the
    split raises as on the empty table. *)
Example build_yearly_sequences_no_full_window :
  build_yearly_sequences iso_year merge_sort_year demo_globals
    [ev_ "P" "2017-03-03" "Z"] demo_vocab 2 2017 2020
  = Raise (KeyError "target_year").
Proof. vm_compute. reflexivity. Qed.

(** One date that does not parse turns the years into floats. *)
Example build_yearly_sequences_unparsed_date :
  build_yearly_sequences iso_year merge_sort_year demo_globals
    (demo_events ++ [ev_ "R" "NaT" "Z"]) demo_vocab 2 2017 2020
  = Raise (TypeError "'float' object cannot be interpreted as an integer").
Proof. vm_compute. reflexivity. Qed.

Lemma demo_candidate_P_2019 : candidate iso_year demo_events 2017 2020 "P" 2019.
Proof.
  exists (ev_ "P" "2019-07-09" "Y").
  split; [do 2 right; left|]. repeat split; lia.
Qed.

Lemma window_check_and_contiguity_witness :
  (forall df, merge_sort_year df ≡ₚ df) /\
  (emitted_rows iso_year merge_sort_year demo_events demo_vocab 2 2017 2020
   = Ok demo_rows /\
   candidate iso_year demo_events 2017 2020 "P" 2019) /\
  ((exists e, e ∈ demo_rows /\ seq_patient_id e = "P" /\ target_year e = 2019)
   <-> 2017 <= 2019 - 2).
Proof.
  split; [exact merge_sort_year_perm|].
  split; [split; [exact emitted_rows_demo|exact demo_candidate_P_2019]|].
  exact (proj1 (proj1 (window_check_and_contiguity iso_year merge_sort_year
                         merge_sort_year_perm demo_events demo_vocab 2 2017 2020)
                  demo_rows emitted_rows_demo)
           "P" 2019 demo_candidate_P_2019).
Defined.

Lemma temporal_split_witness :
  (train_until demo_globals = Some 2018 /\ val_until demo_globals = Some 2019 /\
   2018 < 2019 /\
   emitted_rows iso_year merge_sort_year demo_events demo_vocab 2 2017 2020
   = Ok demo_rows /\
   demo_rows <> []) /\
  exists train val test,
    build_yearly_sequences iso_year merge_sort_year demo_globals demo_events
      demo_vocab 2 2017 2020 = Ok (train, val, test) /\
    records train ++ records val ++ records test ≡ₚ demo_rows.
Proof.
  split.
  { split; [done|]. split; [done|]. split; [lia|].
    split; [exact emitted_rows_demo|done]. }
  destruct (temporal_split iso_year merge_sort_year demo_globals demo_events
              demo_vocab 2 2017 2020 demo_rows 2018 2019)
    as (train & val & test & Hrun & _ & _ & Hperm);
    [done|done|lia|exact emitted_rows_demo|done|].
  by exists train, val, test.
Defined.


Lemma empty_table_raises_witness :
  (forall df, merge_sort_year df ≡ₚ df) /\
  build_yearly_sequences iso_year merge_sort_year demo_globals [] demo_vocab
    2 2017 2020 = Raise (KeyError "target_year").
Proof.
  split; [exact merge_sort_year_perm|].
  exact (empty_table_raises iso_year merge_sort_year merge_sort_year_perm
           demo_globals demo_vocab 2 2017 2020).
Defined.

Lemma nonpositive_history_raises_witness :
  0 <= 0 /\
  build_yearly_sequences iso_year merge_sort_year demo_globals demo_events
    demo_vocab 0 2017 2020
  = Raise (ValueError "min() arg is an empty sequence").
Proof.
  split; [lia|].
  apply (proj2 (nonpositive_history_raises iso_year merge_sort_year
                  merge_sort_year_perm demo_globals demo_events demo_vocab
                  0 2017 2020 (Z.le_refl 0))).
  - exists "P", 2019. exact demo_candidate_P_2019.
  - exact demo_dates_parse.
Defined.

Lemma history_precedes_target_witness :
  (emitted_rows iso_year merge_sort_year demo_events demo_vocab 2 2017 2020
   = Ok demo_rows /\
   demo_row "P" 2020 [["X"]; ["Y"]] [1] ∈ demo_rows) /\
  forall (i : nat) codes c,
    hist_codes (demo_row "P" 2020 [["X"]; ["Y"]] [1]) !! i = Some codes ->
    c ∈ codes ->
    exists ev y, ev ∈ demo_events /\ patient_id ev = "P" /\
                 code_norm ev = Some c /\ iso_year (visit_date ev) = Some y /\
                 hist_years (demo_row "P" 2020 [["X"]; ["Y"]] [1]) !! i = Some y /\
                 y < 2020.
Proof.
  assert (demo_row "P" 2020 [["X"]; ["Y"]] [1] ∈ demo_rows) as Hin
    by (right; left).
  split; [split; [exact emitted_rows_demo|exact Hin]|].
  exact (proj2 (proj2 (history_precedes_target iso_year merge_sort_year
                         merge_sort_year_perm demo_events demo_vocab 2 2017 2020
                         demo_rows _ emitted_rows_demo Hin))).
Defined.

Lemma out_of_vocab_history_not_target_witness :
  (emitted_rows iso_year merge_sort_year demo_events demo_vocab 2 2017 2020
   = Ok demo_rows /\
   demo_row "P" 2020 [["X"]; ["Y"]] [1] ∈ demo_rows /\
   demo_vocab !! "X" = None) /\
  forall y, 2020 - 2 <= y < 2020 -> had_code iso_year demo_events "P" y "X" ->
    exists (i : nat) codes,
      hist_years (demo_row "P" 2020 [["X"]; ["Y"]] [1]) !! i = Some y /\
      hist_codes (demo_row "P" 2020 [["X"]; ["Y"]] [1]) !! i = Some codes /\
      "X" ∈ codes.
Proof.
  assert (demo_row "P" 2020 [["X"]; ["Y"]] [1] ∈ demo_rows) as Hin
    by (right; left).
  split; [split; [exact emitted_rows_demo|split; [exact Hin|done]]|].
  exact (proj1 (out_of_vocab_history_not_target iso_year merge_sort_year
                  merge_sort_year_perm demo_events demo_vocab 2 2017 2020
                  demo_rows _ "X" emitted_rows_demo Hin eq_refl)).
Defined.

(** Why the vocabulary is taken with its indices in [0, K): an index of K
    or more raises at line 70, and a negative one counts from the end. *)
Example emitted_rows_index_out_of_range :
  emitted_rows iso_year merge_sort_year demo_events {[ "Z" := 3 ]} 2 2017 2020
  = Raise (IndexError "list assignment index out of range").
Proof. vm_compute. reflexivity. Qed.

Example emitted_rows_negative_index :
  target_multi_hot
    <$> (match emitted_rows iso_year merge_sort_year demo_events
                 {[ "Z" := -1; "Y" := 0 ]} 2 2017 2020 with
         | Ok rows => rows
         | Raise _ => []
         end)
  = [[1; 0]; [0; 1]; [0; 1]].
Proof. vm_compute. reflexivity. Qed.

(* ===================================================================== *)
(** * Part III. Further properties of the code                            *)
(* ===================================================================== *)

(** ** More on the normalisers *)

Lemma lstrip_split s :
  exists ws, Forall (fun c => is_whitespace c = true) ws /\ s = ws ++ lstrip s.
Proof.
  induction s as [|c s (ws & Hws & IH)]; [by exists []|]. simpl.
  destruct (is_whitespace c) eqn:Hc.
  - exists (c :: ws). split; [by constructor|]. simpl. by f_equal.
  - by exists [].
Qed.

Lemma strip_split s :
  exists ws1 ws2,
    Forall (fun c => is_whitespace c = true) ws1 /\
    Forall (fun c => is_whitespace c = true) ws2 /\
    s = ws1 ++ strip s ++ ws2.
Proof.
  destruct (lstrip_split s) as (ws1 & Hws1 & Hs).
  destruct (lstrip_split (rev (lstrip s))) as (ws2 & Hws2 & Hr).
  exists ws1, (rev ws2). split; [done|]. split; [by apply List.Forall_rev|].
  unfold strip, rstrip. rewrite <- rev_app_distr, <- Hr, rev_involutive. done.
Qed.

Lemma filter_none_Forall {A} (f : A -> bool) (l : list A) :
  Forall (fun x => f x = false) l -> List.filter f l = [].
Proof. induction 1 as [|x l Hx _ IH]; simpl; [done|]. by rewrite Hx. Qed.

Lemma whitespace_not_class c : is_whitespace c = true -> class_AZaz09dot c = false.
Proof.
  intros H. destruct (class_AZaz09dot c) eqn:E; [exfalso|done].
  unfold class_AZaz09dot, is_whitespace in *.
  range_prop H. range_prop E. lia.
Qed.

Lemma class_AZ09dot_AZaz09dot c : class_AZ09dot c = true -> class_AZaz09dot c = true.
Proof.
  unfold class_AZ09dot, class_AZaz09dot. intros H.
  range_prop H. rewrite !orb_true_iff, !andb_true_iff, !N.leb_le, N.eqb_eq. lia.
Qed.

Lemma List_filter_nonempty {A} (f : A -> bool) (l : list A) :
  List.filter f l <> [] <-> exists x, In x l /\ f x = true.
Proof.
  split.
  - intros Hne. destruct (List.filter f l) as [|x l'] eqn:E; [done|].
    exists x. apply List.filter_In. rewrite E. by left.
  - intros (x & Hx & Hf) E.
    assert (In x (List.filter f l)) as Hin by (by apply List.filter_In).
    by rewrite E in Hin.
Qed.

Section NormalizerFurther.

Variable upper_cp : N -> list N.

(** Three facts of Unicode's upper-case mapping: it fixes the capital
    letters, the digits and the dot; it never yields an ASCII small letter;
    and it leaves white space alone. *)
Hypothesis upper_fixes_class :
  forall c, class_AZ09dot c = true -> upper_cp c = [c].
Hypothesis upper_no_small :
  forall c d, In d (upper_cp c) -> ((97 <=? d) && (d <=? 122))%N = false.
Hypothesis upper_fixes_whitespace :
  forall c, is_whitespace c = true -> upper_cp c = [c].

Lemma upper_whitespace_filtered (cls : N -> bool) ws :
  (forall c, cls c = true -> class_AZaz09dot c = true) ->
  Forall (fun c => is_whitespace c = true) ws ->
  List.filter cls (upper upper_cp ws) = [].
Proof using upper_fixes_whitespace.
  intros Hcls Hws. apply filter_none_Forall.
  unfold upper. induction Hws as [|c ws Hc _ IH]; simpl; [done|].
  rewrite (upper_fixes_whitespace c Hc). constructor; [|done].
  destruct (cls c) eqn:E; [|done].
  apply Hcls in E. by rewrite whitespace_not_class in E.
Qed.

(** [strip] is absorbed by the character filter that follows it. *)
Lemma filter_upper_strip (cls : N -> bool) s :
  (forall c, cls c = true -> class_AZaz09dot c = true) ->
  List.filter cls (upper upper_cp (strip s)) = List.filter cls (upper upper_cp s).
Proof using upper_fixes_whitespace.
  intros Hcls. destruct (strip_split s) as (ws1 & ws2 & H1 & H2 & Hs).
  rewrite Hs at 2. unfold upper.
  rewrite !flat_map_app, !List.filter_app.
  fold (upper upper_cp ws1) (upper upper_cp ws2).
  rewrite (upper_whitespace_filtered cls ws1 Hcls H1).
  rewrite (upper_whitespace_filtered cls ws2 Hcls H2).
  by rewrite app_nil_r.
Qed.

Lemma norm_code_class code dotless :
  Forall (fun c => class_AZ09dot c = true) (norm_code upper_cp code dotless).
Proof using upper_no_small.
  destruct code as [s| | |]; simpl; try by constructor.
  assert (Forall (fun c => class_AZ09dot c = true)
            (re_sub_outside class_AZaz09dot (upper upper_cp (strip s)))) as Hc.
  { apply List.Forall_forall. intros c Hc.
    apply List.filter_In in Hc as [Hin Hc].
    apply in_flat_map in Hin as (c0 & _ & Hin).
    apply upper_no_small in Hin.
    unfold class_AZ09dot, class_AZaz09dot in *.
    rewrite Hin in Hc. by rewrite orb_false_r in Hc. }
  destruct dotless; [by apply Forall_filter_keeps|done].
Qed.

(** X1. Both normalisers return only capital letters A-Z, digits and dots,
    and no dot at all when [dotless] is set. *)
Theorem normalizers_alphabet (code : pyobj) (system : string) (dotless : bool) :
  Forall (fun c => class_AZ09dot c = true)
         (normalize_icd upper_cp code system dotless) /\
  Forall (fun c => class_AZ09dot c = true) (norm_code upper_cp code dotless) /\
  (dotless = true ->
   ~ In 46%N (normalize_icd upper_cp code system dotless) /\
   ~ In 46%N (norm_code upper_cp code dotless)).
Proof using upper_no_small.
  split; [|split].
  - destruct code as [s| | |]; simpl; try by constructor.
    destruct dotless; [apply Forall_filter_keeps|]; apply Forall_List_filter.
  - apply norm_code_class.
  - intros ->. destruct code as [s| | |]; simpl; [|split; intros []..].
    split; intros [_ H]%List.filter_In; by vm_compute in H.
Qed.

(** X2. Normalising a concatenation gives the concatenation of the
    normalised parts, for both normalisers. So what the normalisers delete
    (white space at the ends or inside, punctuation) can be put anywhere in
    the input without changing the result. *)
Theorem normalizers_concatenation (s1 s2 : pystr) (system : string) (dotless : bool) :
  normalize_icd upper_cp (PyStr (s1 ++ s2)) system dotless
  = normalize_icd upper_cp (PyStr s1) system dotless
    ++ normalize_icd upper_cp (PyStr s2) system dotless /\
  norm_code upper_cp (PyStr (s1 ++ s2)) dotless
  = norm_code upper_cp (PyStr s1) dotless ++ norm_code upper_cp (PyStr s2) dotless.
Proof using upper_fixes_whitespace.
  assert (forall s, re_sub_outside class_AZ09dot
                      (replace_empty 32 (upper upper_cp (strip s)))
                    = List.filter class_AZ09dot (upper upper_cp s)) as Hn.
  { intros s. unfold re_sub_outside, replace_empty.
    rewrite filter_filter_absorb by apply class_not_space.
    apply filter_upper_strip, class_AZ09dot_AZaz09dot. }
  assert (forall s, re_sub_outside class_AZaz09dot (upper upper_cp (strip s))
                    = List.filter class_AZaz09dot (upper upper_cp s)) as Hc.
  { intros s. by apply filter_upper_strip. }
  simpl. rewrite !Hn, !Hc. unfold upper, replace_empty.
  rewrite !flat_map_app, !List.filter_app.
  by destruct dotless; rewrite ?List.filter_app.
Qed.

(** X3. What the conversion script's [norm_code] returns is a fixed point
    of the process module's [normalize_icd] under the same flag, and
    normalising it without dots gives the script's dotless code: codes
    cleaned by the script are not changed by a second cleaning downstream. *)
Theorem norm_code_fixed_by_normalize_icd (code : pyobj) (system : string)
    (dotless : bool) :
  normalize_icd upper_cp (PyStr (norm_code upper_cp code dotless)) system dotless
  = norm_code upper_cp code dotless /\
  normalize_icd upper_cp (PyStr (norm_code upper_cp code dotless)) system true
  = norm_code upper_cp code true.
Proof using upper_fixes_class upper_no_small.
  rewrite !(normalize_icd_on_class upper_cp upper_fixes_class)
    by apply norm_code_class.
  destruct code as [s| | |]; simpl; try by destruct dotless.
  destruct dotless; [|done]. by rewrite replace_empty_idem.
Qed.

(** X4. [is_valid_diag] accepts a normalised code exactly when the input is
    a string in which, once stripped and upper-cased, some character is a
    capital letter, a digit or, unless [dotless] is set, a dot. A non-string
    and a string of punctuation only are both rejected. *)
Theorem is_valid_diag_normalize_icd (code : pyobj) (system : string)
    (dotless : bool) :
  is_valid_diag (normalize_icd upper_cp code system dotless) = true <->
  exists s c, code = PyStr s /\ In c (upper upper_cp (strip s)) /\
              class_AZ09dot c = true /\ (dotless = true -> c <> 46%N).
Proof.
  assert (forall l : pystr, is_valid_diag l = true <-> l <> []) as Hv.
  { intros []; simpl; split; done. }
  rewrite Hv. destruct code as [s| | |]; simpl;
    try (split; [done|by intros (? & ? & ? & _)]).
  unfold re_sub_outside, replace_empty.
  rewrite (filter_filter_absorb class_AZ09dot) by apply class_not_space.
  destruct dotless; cbv beta iota zeta.
  - etrans; [apply List_filter_nonempty|]. split.
    + intros (c & [Hin Hc]%List.filter_In & Hdot).
      exists s, c. repeat split; try done.
      intros _ ->. by vm_compute in Hdot.
    + intros (? & c & [= <-] & Hin & Hc & Hdot).
      exists c. split; [by apply List.filter_In|].
      apply negb_true_iff, N.eqb_neq. by apply Hdot.
  - etrans; [apply List_filter_nonempty|]. split.
    + intros (c & Hin & Hc). by exists s, c.
    + intros (? & c & [= <-] & Hin & Hc & _). by exists c.
Qed.

End NormalizerFurther.

Lemma ascii_upper_fixes_whitespace c :
  is_whitespace c = true -> ascii_upper_cp c = [c].
Proof.
  intros H. unfold ascii_upper_cp.
  destruct ((97 <=? c) && (c <=? 122))%N eqn:E; [exfalso|done].
  unfold is_whitespace in H. range_prop H. range_prop E. lia.
Qed.

Lemma normalizers_alphabet_witness :
  (forall c d, In d (ascii_upper_cp c) -> ((97 <=? d) && (d <=? 122))%N = false) /\
  Forall (fun c => class_AZ09dot c = true)
         (norm_code ascii_upper_cp (PyStr (cps " 250.00 (dm)")) false).
Proof.
  split; [exact ascii_upper_no_small|].
  exact (proj1 (proj2 (normalizers_alphabet ascii_upper_cp ascii_upper_no_small
                         (PyStr (cps " 250.00 (dm)")) "ICD9" false))).
Defined.

Lemma normalizers_concatenation_witness :
  (forall c, is_whitespace c = true -> ascii_upper_cp c = [c]) /\
  normalize_icd ascii_upper_cp (PyStr (cps " e11" ++ cps ". 9 ")) "ICD10" true
  = normalize_icd ascii_upper_cp (PyStr (cps " e11")) "ICD10" true
    ++ normalize_icd ascii_upper_cp (PyStr (cps ". 9 ")) "ICD10" true.
Proof.
  split; [exact ascii_upper_fixes_whitespace|].
  exact (proj1 (normalizers_concatenation ascii_upper_cp
                  ascii_upper_fixes_whitespace (cps " e11") (cps ". 9 ")
                  "ICD10" true)).
Defined.

Lemma norm_code_fixed_by_normalize_icd_witness :
  ((forall c, class_AZ09dot c = true -> ascii_upper_cp c = [c]) /\
   (forall c d, In d (ascii_upper_cp c) -> ((97 <=? d) && (d <=? 122))%N = false)) /\
  normalize_icd ascii_upper_cp
    (PyStr (norm_code ascii_upper_cp (PyStr (cps "v45.81")) false)) "ICD9" true
  = norm_code ascii_upper_cp (PyStr (cps "v45.81")) true.
Proof.
  split; [split; [exact ascii_upper_fixes_class|exact ascii_upper_no_small]|].
  exact (proj2 (norm_code_fixed_by_normalize_icd ascii_upper_cp
                  ascii_upper_fixes_class ascii_upper_no_small
                  (PyStr (cps "v45.81")) "ICD9" false)).
Defined.

(** ** More on the vocabulary builder *)

Lemma StronglySorted_lookup {A} (R : relation A) (l : list A) (i j : nat) a b :
  StronglySorted R l -> (i < j)%nat -> l !! i = Some a -> l !! j = Some b -> R a b.
Proof.
  intros Hs. revert i j. induction Hs as [|x l Hs IH Hx]; intros i j Hij Hi Hj.
  { by destruct i. }
  destruct j as [|j]; [lia|]. simpl in Hj. destruct i as [|i]; simpl in Hi.
  - injection Hi as <-. eapply Forall_forall in Hx; [done|].
    by eapply list_elem_of_lookup_2.
  - eapply (IH i j); [lia|done..].
Qed.

Lemma StronglySorted_filter {A} (R : relation A) (P : A -> Prop)
    `{forall x, Decision (P x)} (l : list A) :
  StronglySorted R l -> StronglySorted R (filter P l).
Proof.
  induction 1 as [|x l Hs IH Hx]; [constructor|].
  rewrite filter_cons. destruct (decide (P x)); [|done].
  constructor; [done|]. apply Forall_forall. intros y [_ Hy]%list_elem_of_filter.
  eapply Forall_forall in Hx; done.
Qed.

Lemma length_head {A} (k : Z) (l : list A) :
  Z.of_nat (length (head k l))
  = if 0 <=? k then Z.min k (Z.of_nat (length l))
    else Z.max 0 (Z.of_nat (length l) + k).
Proof. unfold head. destruct (Z.leb_spec 0 k); rewrite length_take; lia. Qed.

Lemma head_is_take {A} (k : Z) (l : list A) : exists n, head k l = take n l.
Proof. unfold head. destruct (0 <=? k); by eexists. Qed.

Lemma groupby_code_nunique_elem df_events c n :
  (c, n) ∈ groupby_code_nunique df_events <->
  (exists ev, ev ∈ df_events /\ code_norm ev = Some c) /\
  n = nunique (patients_of_code df_events c).
Proof.
  unfold groupby_code_nunique, sorted_str. rewrite list_elem_of_fmap.
  setoid_rewrite merge_sort_Permutation. setoid_rewrite elem_of_unique.
  setoid_rewrite list_elem_of_omap. split.
  - intros (? & [= <- ->] & Hev). done.
  - intros [Hev ->]. by exists c.
Qed.

Lemma dict_of_enumerate_spec (codes : list string) :
  NoDup codes ->
  size (dict_of_enumerate (enumerate codes)) = length codes /\
  forall c i, dict_of_enumerate (enumerate codes) !! c = Some i <->
              exists n : nat, codes !! n = Some c /\ i = Z.of_nat n.
Proof.
  intros Hnd. unfold dict_of_enumerate, enumerate. split.
  - rewrite dict_of_enumerate_size; [by rewrite map_size_empty|done|].
    intros. apply lookup_empty.
  - intros c i. rewrite dict_of_enumerate_lookup by done.
    rewrite lookup_empty. split.
    + intros [(n & ? & ->)|[_ ?]]; [|done]. exists n. split; [done|lia].
    + intros (n & ? & ->). left. exists n. split; [done|lia].
Qed.

Section VocabFurther.

Variable sort_values_desc : list (string * Z) -> list (string * Z).
Hypothesis sort_values_desc_perm : forall l, sort_values_desc l ≡ₚ l.

(** The pairs (code, count) that pass the threshold, in the order of the
    sort: the retained codes are the codes of a prefix of them. *)
Lemma retained_codes_prefix df_events min_patients top_k :
  let passing := filter (fun cn : string * Z => min_patients <= cn.2)
                   (sort_values_desc (groupby_code_nunique df_events)) in
  NoDup passing.*1 /\
  (forall c n, (c, n) ∈ passing <->
     qualifies df_events min_patients c /\
     n = nunique (patients_of_code df_events c)) /\
  exists k : nat,
    retained_codes sort_values_desc df_events min_patients top_k
    = (take k passing).*1 /\
    match top_k with
    | None => take k passing = passing
    | Some t => take k passing = head t passing
    end.
Proof using sort_values_desc_perm.
  intros passing. split; [|split].
  - eapply sublist_NoDup; [|apply fmap_sublist, sublist_filter].
    rewrite sort_values_desc_perm. apply groupby_code_nunique_keys.
  - intros c n. unfold passing, qualifies.
    rewrite list_elem_of_filter, sort_values_desc_perm, groupby_code_nunique_elem.
    simpl. split; [intros (? & ? & ->); done|intros [[? ?] ->]; done].
  - unfold retained_codes. fold passing. destruct top_k as [t|].
    + destruct (head_is_take t passing) as [k Hk]. exists k. by rewrite Hk.
    + exists (length passing). by rewrite firstn_all.
Qed.

(** X5. The domain and the size of the vocabulary. The codes that occur
    and have at least [min_patients] distinct patients are the only ones
    that can get an index. Without [top_k] each of them gets one; with
    [top_k = k] the vocabulary has [min(k, n)] codes for [k >= 0] and
    [max(0, n + k)] for a negative [k], [n] being their number: a negative
    cap drops [-k] codes from the end instead of keeping [k]. *)
Theorem build_label_vocab_domain_and_size (df_events : list Event)
    (min_patients : Z) (top_k : option Z) :
  let vocab := build_label_vocab sort_values_desc df_events min_patients top_k in
  exists qualifying : list string,
    NoDup qualifying /\
    (forall c, c ∈ qualifying <-> qualifies df_events min_patients c) /\
    (forall c, is_Some (vocab !! c) -> c ∈ qualifying) /\
    match top_k with
    | None => forall c, c ∈ qualifying -> is_Some (vocab !! c)
    | Some k =>
        Z.of_nat (size vocab)
        = if 0 <=? k then Z.min k (Z.of_nat (length qualifying))
          else Z.max 0 (Z.of_nat (length qualifying) + k)
    end.
Proof using sort_values_desc_perm.
  intros vocab.
  destruct (retained_codes_prefix df_events min_patients top_k)
    as (Hnd & Hpass & k & Hret & Htake).
  set (passing := filter _ _) in *.
  assert (NoDup (retained_codes sort_values_desc df_events min_patients top_k))
    as Hndr.
  { rewrite Hret. eapply sublist_NoDup; [exact Hnd|].
    apply fmap_sublist, sublist_take. }
  destruct (dict_of_enumerate_spec _ Hndr) as [Hsize Hlook].
  fold (build_label_vocab sort_values_desc df_events min_patients top_k) in Hsize, Hlook.
  fold vocab in Hsize, Hlook.
  exists passing.*1. split; [done|]. split; [|split].
  - intros c. rewrite list_elem_of_fmap. split.
    + intros ([c' n] & -> & Hin). by apply Hpass in Hin as [? _].
    + intros Hq. exists (c, nunique (patients_of_code df_events c)).
      split; [done|]. by apply Hpass.
  - intros c [i (n & Hn & _)%Hlook]. rewrite Hret in Hn.
    apply list_elem_of_lookup_2 in Hn.
    eapply elem_of_sublist; [done|]. apply fmap_sublist, sublist_take.
  - destruct top_k as [t|].
    + rewrite Hsize, Hret, length_fmap, Htake, length_head, length_fmap. done.
    + intros c Hc. rewrite Hret, Htake in Hlook.
      apply list_elem_of_lookup_1 in Hc as [n Hn].
      exists (Z.of_nat n). apply Hlook. by exists n.
Qed.

(** The sort puts larger counts first. *)
Hypothesis sort_values_desc_sorted :
  forall l, StronglySorted count_ge (sort_values_desc l).

(** X6. Indices follow prevalence: of two codes of the vocabulary the one
    with the smaller index has at least as many distinct patients; and a
    code that meets the threshold but is cut off by [top_k] has no more
    patients than any code that stayed. *)
Theorem build_label_vocab_most_prevalent_first (df_events : list Event)
    (min_patients : Z) (top_k : option Z) :
  let vocab := build_label_vocab sort_values_desc df_events min_patients top_k in
  let count c := nunique (patients_of_code df_events c) in
  (forall c1 c2 i1 i2, vocab !! c1 = Some i1 -> vocab !! c2 = Some i2 ->
     i1 < i2 -> count c2 <= count c1) /\
  (forall c c' i, qualifies df_events min_patients c -> vocab !! c = None ->
     vocab !! c' = Some i -> count c <= count c').
Proof using sort_values_desc_perm sort_values_desc_sorted.
  intros vocab count.
  destruct (retained_codes_prefix df_events min_patients top_k)
    as (Hnd & Hpass & k & Hret & _).
  set (passing := filter _ _) in *.
  assert (StronglySorted count_ge passing) as Hsorted
    by apply StronglySorted_filter, sort_values_desc_sorted.
  assert (NoDup (retained_codes sort_values_desc df_events min_patients top_k))
    as Hndr.
  { rewrite Hret. eapply sublist_NoDup; [exact Hnd|].
    apply fmap_sublist, sublist_take. }
  destruct (dict_of_enumerate_spec _ Hndr) as [_ Hlook].
  fold (build_label_vocab sort_values_desc df_events min_patients top_k) in Hlook.
  fold vocab in Hlook. rewrite Hret in Hlook.
  assert (forall c (n : nat), (take k passing).*1 !! n = Some c ->
            take k passing !! n = Some (c, count c)) as Hpair.
  { intros c n Hn. rewrite list_lookup_fmap in Hn.
    destruct (take k passing !! n) as [[c' m]|] eqn:Hcm; [|done].
    injection Hn as ->. f_equal. f_equal.
    apply list_elem_of_lookup_2, elem_of_take in Hcm as (j & Hj & _).
    apply list_elem_of_lookup_2, Hpass in Hj as [_ ->]. done. }
  split.
  - intros c1 c2 i1 i2 (n1 & H1 & ->)%Hlook (n2 & H2 & ->)%Hlook Hlt.
    apply Hpair in H1, H2.
    assert (StronglySorted count_ge (take k passing)) as Hst.
    { rewrite <- (take_drop k passing) in Hsorted.
      by apply StronglySorted_app_1_l in Hsorted. }
    pose proof (StronglySorted_lookup count_ge (take k passing) n1 n2
                  (c1, count c1) (c2, count c2) Hst) as Hle.
    apply Hle; [lia|done..].
  - intros c c' i Hq Hnone (n' & Hc' & ->)%Hlook.
    apply Hpair in Hc'.
    assert ((c, count c) ∈ passing) as Hin by (by apply Hpass).
    rewrite <- (take_drop k passing) in Hin, Hsorted.
    apply elem_of_app in Hin as [Hin|Hin].
    + exfalso. apply list_elem_of_lookup_1 in Hin as [n Hn].
      assert ((take k passing).*1 !! n = Some c) as Hn'
        by (by rewrite list_lookup_fmap, Hn).
      assert (vocab !! c = Some (Z.of_nat n)) as Hsome
        by (apply Hlook; by exists n).
      congruence.
    + apply list_elem_of_lookup_2 in Hc'.
      by apply (StronglySorted_app_1_elem_of _ _ _ _ _ Hsorted Hc' Hin).
Qed.

End VocabFurther.

Lemma merge_sort_desc_perm l : merge_sort_desc l ≡ₚ l.
Proof. apply merge_sort_Permutation. Qed.

Lemma merge_sort_desc_sorted l : StronglySorted count_ge (merge_sort_desc l).
Proof.
  apply (@StronglySorted_merge_sort _ count_ge _).
  - intros a b c. unfold count_ge. lia.
  - intros a b. unfold count_ge. lia.
Qed.

Lemma build_label_vocab_domain_and_size_witness :
  let df := [ev_ "p1" "d" "A"; ev_ "p2" "d" "B"; ev_ "p2" "d" "A"; ev_ "p3" "d" "C";
             ev_ "p1" "d" "C"] in
  (forall l, merge_sort_desc l ≡ₚ l) /\
  exists qualifying : list string,
    (forall c, c ∈ qualifying <-> qualifies df 2 c) /\
    Z.of_nat (size (build_label_vocab merge_sort_desc df 2 (Some (-1))))
    = Z.max 0 (Z.of_nat (length qualifying) + -1).
Proof.
  intros df. split; [exact merge_sort_desc_perm|].
  destruct (build_label_vocab_domain_and_size merge_sort_desc merge_sort_desc_perm
              df 2 (Some (-1))) as (q & _ & Hq & _ & Hsize).
  exists q. split; [exact Hq|exact Hsize].
Defined.

Lemma build_label_vocab_most_prevalent_first_witness :
  let df := [ev_ "p1" "d" "A"; ev_ "p2" "d" "B"; ev_ "p2" "d" "A"; ev_ "p3" "d" "A";
             ev_ "p1" "d" "B"] in
  ((forall l, merge_sort_desc l ≡ₚ l) /\
   (forall l, StronglySorted count_ge (merge_sort_desc l))) /\
  (build_label_vocab merge_sort_desc df 2 None !! "A" = Some 0 /\
   build_label_vocab merge_sort_desc df 2 None !! "B" = Some 1 /\ 0 < 1) /\
  nunique (patients_of_code df "B") <= nunique (patients_of_code df "A").
Proof.
  intros df.
  split; [split; [exact merge_sort_desc_perm|exact merge_sort_desc_sorted]|].
  assert (build_label_vocab merge_sort_desc df 2 None !! "A" = Some 0) as HA
    by (vm_compute; reflexivity).
  assert (build_label_vocab merge_sort_desc df 2 None !! "B" = Some 1) as HB
    by (vm_compute; reflexivity).
  split; [split; [exact HA|split; [exact HB|lia]]|].
  apply (proj1 (build_label_vocab_most_prevalent_first merge_sort_desc
                  merge_sort_desc_perm merge_sort_desc_sorted df 2 None)
           "A" "B" 0 1 HA HB).
  lia.
Defined.

(** ** More on the sequence builder *)

Lemma for_years_keys dt label_to_id H min_year pid g years : forall rows rows',
  for_years dt label_to_id H min_year pid g years rows = Ok rows' ->
  seq_key <$> rows' = (seq_key <$> rows) ++ (pair pid <$> window_years H min_year years).
Proof.
  unfold window_years.
  induction years as [|Y ys IH]; intros rows rows' Hrun; simpl in Hrun.
  { injection Hrun as <-. by rewrite app_nil_r. }
  destruct dt; [|done]. simpl in Hrun.
  destruct (py_min _) as [lo|] eqn:Hlo; [|done]. simpl in Hrun.
  assert (lo = Y - H) as ->.
  { destruct (decide (0 < H)).
    - rewrite py_min_range in Hlo by lia. congruence.
    - by rewrite py_min_range_empty in Hlo by lia. }
  rewrite filter_cons. case_bool_decide as Hw.
  - rewrite decide_False by lia. by apply IH.
  - rewrite decide_True by lia.
    destruct (set_targets _ _ _) as [mh|]; [|done]. simpl in Hrun.
    apply IH in Hrun. rewrite Hrun, fmap_app, <- app_assoc. done.
Qed.

Lemma for_patients_keys dt label_to_id H min_year groups : forall rows rows',
  for_patients dt label_to_id H min_year groups rows = Ok rows' ->
  seq_key <$> rows'
  = (seq_key <$> rows)
    ++ (groups ≫= fun pg => pair pg.1 <$> window_years H min_year (group_years pg.2)).
Proof.
  induction groups as [|[pid g] gs IH]; intros rows rows' Hrun; simpl in Hrun.
  { injection Hrun as <-. by rewrite app_nil_r. }
  destruct (for_years _ _ _ _ _ _ _ _) as [rows1|] eqn:Hy; [|done]. simpl in Hrun.
  apply for_years_keys in Hy. apply IH in Hrun.
  rewrite Hrun, Hy, bind_cons, <- app_assoc. done.
Qed.

Lemma group_years_increasing g : StronglySorted Z.lt (group_years g).
Proof.
  unfold group_years, sorted_int.
  set (l := unique (omap year g)).
  assert (NoDup (merge_sort Z.le l)) as Hnd.
  { rewrite merge_sort_Permutation. apply NoDup_unique. }
  assert (StronglySorted Z.le (merge_sort Z.le l)) as Hs
    by apply (StronglySorted_merge_sort Z.le).
  induction Hs as [|x l' Hs IH Hx]; [constructor|].
  apply NoDup_cons in Hnd as [Hx' Hnd].
  constructor; [by apply IH|].
  apply Forall_forall. intros y Hy.
  eapply Forall_forall in Hx; [|done].
  assert (x <> y) by (intros ->; done). lia.
Qed.

Lemma groups_keys_sorted H min_year (groups : list (string * list Row)) :
  NoDup groups.*1 ->
  StronglySorted key_before
    (groups ≫= fun pg => pair pg.1 <$> window_years H min_year (group_years pg.2)).
Proof.
  induction groups as [|[pid g] gs IH]; intros Hnd; [constructor|].
  rewrite fmap_cons in Hnd. apply NoDup_cons in Hnd as [Hpid Hnd].
  rewrite bind_cons. apply StronglySorted_app_2; [| |by apply IH].
  - intros [p1 y1] [p2 y2] [Y1 [[= -> ->] _]]%list_elem_of_fmap Hin Heq.
    simpl in *. subst p2. exfalso. apply Hpid.
    apply list_elem_of_bind in Hin as ([p3 g3] & Hin & Hg).
    apply list_elem_of_fmap in Hin as (? & [= -> ->] & _).
    apply list_elem_of_fmap. by exists (p3, g3).
  - simpl. apply (StronglySorted_fmap _ Z.lt key_before).
    + intros y1 y2 Hlt _. done.
    + apply StronglySorted_filter, group_years_increasing.
Qed.

Lemma groupby_patient_id_keys df : NoDup (groupby_patient_id df).*1.
Proof.
  unfold groupby_patient_id. rewrite <- list_fmap_compose.
  rewrite (list_fmap_ext _ id) by done. rewrite list_fmap_id.
  unfold sorted_str. rewrite merge_sort_Permutation. apply NoDup_unique.
Qed.

Lemma key_before_NoDup (keys : list (string * Z)) :
  StronglySorted key_before keys -> NoDup keys.
Proof.
  induction 1 as [|x l Hs IH Hx]; constructor; [|done].
  intros Hin. eapply Forall_forall in Hx; [|done].
  unfold key_before in Hx. specialize (Hx eq_refl). lia.
Qed.

Lemma set_targets_indices_in_range label_to_id target_codes :
  forall multi_hot multi_hot',
  set_targets label_to_id multi_hot target_codes = Ok multi_hot' ->
  forall c, Some c ∈ target_codes ->
    exists i, label_to_id !! c = Some i /\
              - Z.of_nat (length multi_hot) <= i < Z.of_nat (length multi_hot).
Proof.
  induction target_codes as [|c0 cs IH]; intros mh mh' Hrun c Hc.
  { by apply elem_of_nil in Hc. }
  simpl in Hrun. destruct c0 as [c0|]; [|done]. unfold dict_getitem in Hrun.
  destruct (label_to_id !! c0) as [i|] eqn:Hi; [|done]. simpl in Hrun.
  destruct (list_setitem mh i 1) as [mh1|] eqn:Hset; [|done]. simpl in Hrun.
  apply list_setitem_Ok in Hset as [Hrange ->].
  apply elem_of_cons in Hc as [[= ->]|Hc]; [by exists i|].
  destruct (IH _ _ Hrun c Hc) as (j & Hj & Hr).
  rewrite length_insert in Hr. by exists j.
Qed.

Lemma set_targets_raises label_to_id target_codes : forall multi_hot e,
  (forall c, c ∈ target_codes -> exists s, c = Some s /\ is_Some (label_to_id !! s)) ->
  set_targets label_to_id multi_hot target_codes = Raise e ->
  e = IndexError "list assignment index out of range".
Proof.
  induction target_codes as [|c cs IH]; intros mh e Hin Hrun; [done|].
  simpl in Hrun. destruct (Hin c) as (s & -> & [i Hi]); [by left|].
  unfold dict_getitem in Hrun. rewrite Hi in Hrun. simpl in Hrun.
  destruct (list_setitem mh i 1) as [mh1|e1] eqn:Hset; simpl in Hrun.
  - eapply IH; [|done]. intros c Hc. apply Hin. by right.
  - unfold list_setitem in Hset. repeat case_bool_decide; congruence.
Qed.

Lemma set_targets_total_signed label_to_id target_codes : forall multi_hot,
  (forall c, c ∈ target_codes ->
     exists s i, c = Some s /\ label_to_id !! s = Some i /\
                 - Z.of_nat (length multi_hot) <= i < Z.of_nat (length multi_hot)) ->
  exists multi_hot', set_targets label_to_id multi_hot target_codes = Ok multi_hot'.
Proof.
  induction target_codes as [|c cs IH]; intros mh Hin; simpl; [by eexists|].
  destruct (Hin c) as (s & i & -> & Hi & Hrange); [by left|].
  unfold dict_getitem. rewrite Hi. simpl.
  assert (exists mh1, list_setitem mh i 1 = Ok mh1 /\ length mh1 = length mh)
    as (mh1 & -> & Hlen).
  { unfold list_setitem. repeat case_bool_decide;
      try (eexists; split; [done|apply length_insert]). lia. }
  simpl. apply IH. intros c' Hc'. rewrite Hlen. apply Hin. by right.
Qed.

Lemma for_years_raises label_to_id H min_year pid g years : forall rows e,
  1 <= H ->
  (forall Y c, Y ∈ years -> c ∈ target_codes_of g Y ->
     exists s, c = Some s /\ is_Some (label_to_id !! s)) ->
  for_years int32 label_to_id H min_year pid g years rows = Raise e ->
  e = IndexError "list assignment index out of range".
Proof.
  induction years as [|Y ys IH]; intros rows e HH Hin Hrun; [done|].
  simpl in Hrun. replace (Y - (Y - H)) with H in Hrun by lia.
  rewrite py_min_range in Hrun by lia. simpl in Hrun.
  assert (forall Y' c, Y' ∈ ys -> c ∈ target_codes_of g Y' ->
            exists s, c = Some s /\ is_Some (label_to_id !! s)) as Hin'
    by (intros Y' c HY'; apply Hin; by right).
  case_bool_decide; [by eapply IH|].
  destruct (set_targets _ _ _) as [mh|e1] eqn:Hset; simpl in Hrun.
  - by eapply IH.
  - injection Hrun as <-. eapply set_targets_raises; [|done].
    intros c. apply Hin. by left.
Qed.

Lemma for_patients_raises label_to_id H min_year groups : forall rows e,
  1 <= H ->
  (forall pid g Y c, (pid, g) ∈ groups -> Y ∈ group_years g ->
     c ∈ target_codes_of g Y ->
     exists s, c = Some s /\ is_Some (label_to_id !! s)) ->
  for_patients int32 label_to_id H min_year groups rows = Raise e ->
  e = IndexError "list assignment index out of range".
Proof.
  induction groups as [|[pid g] gs IH]; intros rows e HH Hin Hrun; [done|].
  simpl in Hrun.
  destruct (for_years _ _ _ _ _ _ _ _) as [rows1|e1] eqn:Hy; simpl in Hrun.
  - eapply IH; [done| |done]. intros pid' g' Y c Hg. apply (Hin pid' g'). by right.
  - injection Hrun as <-. eapply for_years_raises; [done| |done].
    intros Y c. apply (Hin pid g). by left.
Qed.

Lemma for_patients_float label_to_id H min_year groups rows :
  groups <> [] ->
  (forall pid g, (pid, g) ∈ groups -> group_years g <> []) ->
  for_patients float64 label_to_id H min_year groups rows
  = Raise (TypeError "'float' object cannot be interpreted as an integer").
Proof.
  intros Hne Hyears. destruct groups as [|[pid g] gs]; [done|]. simpl.
  destruct (group_years g) as [|Y ys] eqn:Hg; [|done].
  exfalso. apply (Hyears pid g); [by left|done].
Qed.

Section SequenceFurther.

Variable cell_year : string -> option Z.
Variable sort_values_year : list Row -> list Row.
Hypothesis sort_values_year_perm : forall df, sort_values_year df ≡ₚ df.

(** X7. The builder returns in one case only: the loops ended with at
    least one row and both cut-offs are bound. An exception of the loops
    goes through, no row at all gives [KeyError] at line 83 whatever the
    cut-offs, and with rows an unbound [train_until] gives [NameError]
    before [val_until] is looked at. *)
Theorem build_yearly_sequences_outcomes (G : Globals) (df_events : list Event)
    (label_to_id : gmap string Z) (H min_year max_year : Z) :
  let run := build_yearly_sequences cell_year sort_values_year G df_events
               label_to_id H min_year max_year in
  let loops := emitted_rows cell_year sort_values_year df_events label_to_id
                 H min_year max_year in
  ((exists train val test, run = Ok (train, val, test)) <->
   (exists rows, loops = Ok rows /\ rows <> [] /\
                 is_Some (train_until G) /\ is_Some (val_until G))) /\
  (forall e, loops = Raise e -> run = Raise e) /\
  (loops = Ok [] -> run = Raise (KeyError "target_year")) /\
  (forall rows, loops = Ok rows -> rows <> [] ->
     (train_until G = None -> run = Raise (NameError "train_until")) /\
     (is_Some (train_until G) -> val_until G = None ->
      run = Raise (NameError "val_until"))).
Proof.
  intros run loops.
  assert (forall e, loops = Raise e -> run = Raise e) as Hraise.
  { intros e He. subst run loops. unfold build_yearly_sequences. by rewrite He. }
  assert (loops = Ok [] -> run = Raise (KeyError "target_year")) as Hnone
    by apply no_rows_KeyError.
  assert (forall rows, loops = Ok rows -> rows <> [] ->
     (train_until G = None -> run = Raise (NameError "train_until")) /\
     (is_Some (train_until G) -> val_until G = None ->
      run = Raise (NameError "val_until"))) as Hname.
  { intros rows Hrows Hne. subst run loops. unfold build_yearly_sequences.
    rewrite Hrows. unfold mbind, result_bind, global_name.
    rewrite (getitem_target_year_rows rows Hne).
    split; [by intros ->|]. by intros [t ->] ->. }
  split; [|done]. split.
  - intros (train & val & test & Hrun).
    destruct loops as [rows|e] eqn:Hrows;
      [|rewrite (Hraise e eq_refl) in Hrun; done].
    exists rows. split; [done|].
    destruct (decide (rows = [])) as [->|Hne];
      [rewrite (Hnone eq_refl) in Hrun; done|].
    split; [done|].
    destruct (Hname rows eq_refl Hne) as [Ht Hv].
    destruct (train_until G) as [t|]; [|rewrite (Ht eq_refl) in Hrun; done].
    split; [done|].
    destruct (val_until G) as [v|]; [done|].
    rewrite (Hv (mk_is_Some _ _ eq_refl) eq_refl) in Hrun. done.
  - intros (rows & Hrows & Hne & [t Ht] & [v Hv]).
    destruct (build_yearly_sequences_split cell_year sort_values_year G df_events
                label_to_id H min_year max_year rows t v)
      as (train & val & test & Hrun & _); [done..|].
    by exists train, val, test.
Qed.

(** X9. The emitted rows come one per (patient, target year), and the rows
    of a patient come in increasing order of target year. *)
Theorem emitted_rows_ordered (df_events : list Event)
    (label_to_id : gmap string Z) (H min_year max_year : Z) (rows : list SeqRow) :
  emitted_rows cell_year sort_values_year df_events label_to_id H min_year max_year
  = Ok rows ->
  NoDup (seq_key <$> rows) /\
  (forall (i j : nat) e1 e2, (i < j)%nat ->
     rows !! i = Some e1 -> rows !! j = Some e2 ->
     seq_patient_id e1 = seq_patient_id e2 -> target_year e1 < target_year e2).
Proof.
  unfold emitted_rows. rewrite working_frame_eq.
  intros Hkeys%for_patients_keys. simpl in Hkeys.
  assert (StronglySorted key_before (seq_key <$> rows)) as Hs.
  { rewrite Hkeys. apply groups_keys_sorted, groupby_patient_id_keys. }
  split; [by apply key_before_NoDup|].
  intros i j e1 e2 Hij H1 H2 Hpid.
  pose proof (StronglySorted_lookup key_before (seq_key <$> rows) i j
                (seq_key e1) (seq_key e2) Hs Hij) as Hb.
  rewrite !list_lookup_fmap, H1, H2 in Hb. by apply Hb.
Qed.

(** X10. An empty vocabulary is accepted: with a history length of at least
    one, dates that parse, the cut-offs bound and some candidate year that
    passes the window check, the builder returns three frames, and the
    target vector of every returned row is the empty list. *)
Theorem empty_vocabulary_returns (G : Globals) (df_events : list Event)
    (H min_year max_year : Z) (pid : string) (Y : Z) :
  1 <= H -> dates_parse cell_year df_events ->
  is_Some (train_until G) -> is_Some (val_until G) ->
  candidate cell_year df_events min_year max_year pid Y -> min_year <= Y - H ->
  exists train val test,
    build_yearly_sequences cell_year sort_values_year G df_events ∅
      H min_year max_year = Ok (train, val, test) /\
    forall e, e ∈ records train ++ records val ++ records test ->
              target_multi_hot e = [].
Proof using sort_values_year_perm.
  intros HH Hdates [t Ht] [v Hv] HY Hlo.
  destruct (emitted_rows_total cell_year sort_values_year sort_values_year_perm
              df_events ∅ H min_year max_year) as [rows Hrows]; [done| |done|].
  { intros c i Hc. by rewrite lookup_empty in Hc. }
  pose proof Hrows as [Hmem Hcand]%emitted_rows_Ok; [|done].
  assert (rows <> []) as Hne.
  { destruct (Hcand pid Y HY) as (_ & _ & Hex). destruct (Hex Hlo) as [e He].
    assert (e ∈ rows) as Hin by (apply Hmem; by exists pid, Y).
    intros ->. by apply elem_of_nil in Hin. }
  destruct (build_yearly_sequences_split cell_year sort_values_year G df_events ∅
              H min_year max_year rows t v)
    as (train & val & test & Hrun & Htr & Hva & Hte); [done..|].
  exists train, val, test. split; [done|].
  intros e He. assert (e ∈ rows) as Hin.
  { rewrite Htr, Hva, Hte, !elem_of_app, !list_elem_of_filter in He. tauto. }
  apply Hmem in Hin as (? & ? & _ & _ & mh & Hmh & ->). simpl.
  apply set_targets_Ok in Hmh as [Hlen _].
  rewrite length_replicate, map_size_empty in Hlen. by destruct mh.
Qed.

(** X11. The bounds of the vocabulary indices, at line 70. With a history
    length of at least one and dates that parse, the loops end whenever
    every index lies in [-K, K), K the size of the vocabulary, a negative
    index counting from the end of the vector; and an index outside
    [-K, K), on a code some patient has in a target year that passes the
    window check, makes the builder raise [IndexError]. *)
Theorem vocabulary_index_bounds (df_events : list Event)
    (label_to_id : gmap string Z) (H min_year max_year : Z) :
  1 <= H -> dates_parse cell_year df_events ->
  let K := Z.of_nat (size label_to_id) in
  ((forall c i, label_to_id !! c = Some i -> - K <= i < K) ->
   exists rows,
     emitted_rows cell_year sort_values_year df_events label_to_id H min_year max_year
     = Ok rows) /\
  (forall pid Y c i,
     candidate cell_year df_events min_year max_year pid Y -> min_year <= Y - H ->
     had_code cell_year df_events pid Y c -> label_to_id !! c = Some i ->
     ~ (- K <= i < K) ->
     emitted_rows cell_year sort_values_year df_events label_to_id H min_year max_year
     = Raise (IndexError "list assignment index out of range")).
Proof using sort_values_year_perm.
  intros HH Hdates K.
  assert (forall pid g Y c,
    (pid, g) ∈ groupby_patient_id
                 (sort_values_year
                    (mk_row cell_year label_to_id
                       <$> filter (year_in_range cell_year min_year max_year) df_events)) ->
    Y ∈ group_years g -> c ∈ target_codes_of g Y ->
    exists s, c = Some s /\ is_Some (label_to_id !! s)) as Htc.
  { intros pid g Y c Hg HY Hc. apply elem_of_groups in Hg as ->.
    apply group_years_candidate in HY as (_ & _ & _ & _ & Hr); [|done].
    apply target_codes_group in Hc as (s & -> & _ & Hs); [|done..].
    by exists s. }
  split.
  - intros Hidx. unfold emitted_rows. rewrite working_frame_eq.
    rewrite bool_decide_eq_true_2 by done.
    apply for_patients_total; [done|].
    intros pid g Y Hg HY _. apply set_targets_total_signed. intros c Hc.
    destruct (Htc pid g Y c Hg HY Hc) as (s & -> & [i Hi]).
    exists s, i. rewrite length_replicate. split; [done|]. split; [done|].
    by apply (Hidx s).
  - intros pid Y c i HY Hlo Hhad Hi Hout.
    destruct (emitted_rows cell_year sort_values_year df_events label_to_id
                H min_year max_year) as [rows|e] eqn:Hrows.
    + exfalso. apply emitted_rows_Ok in Hrows as [_ Hcand]; [|done].
      destruct (Hcand pid Y HY) as (_ & _ & Hex).
      destruct (Hex Hlo) as (e & _ & mh & Hmh & _).
      destruct HY as (_ & _ & _ & _ & Hr).
      destruct (set_targets_indices_in_range _ _ _ _ Hmh c) as (j & Hj & Hrange).
      * apply target_codes_group; [done..|]. exists c. by rewrite Hi.
      * rewrite length_replicate in Hrange. apply Hout.
        assert (i = j) as -> by congruence. done.
    + f_equal. unfold emitted_rows in Hrows. rewrite working_frame_eq in Hrows.
      rewrite bool_decide_eq_true_2 in Hrows by done.
      by eapply for_patients_raises.
Qed.

(** X12. One date that does not parse stops the builder: the year column is
    then stored in floating point, and as soon as some patient has an event
    in the valid range, [range] at line 55 raises [TypeError], whatever the
    other arguments. *)
Theorem unparsed_date_raises (G : Globals) (df_events : list Event)
    (label_to_id : gmap string Z) (H min_year max_year : Z) (pid : string) (Y : Z) :
  ~ dates_parse cell_year df_events ->
  candidate cell_year df_events min_year max_year pid Y ->
  build_yearly_sequences cell_year sort_values_year G df_events label_to_id
    H min_year max_year
  = Raise (TypeError "'float' object cannot be interpreted as an integer").
Proof using sort_values_year_perm.
  intros Hdates HY. unfold build_yearly_sequences, emitted_rows.
  rewrite working_frame_eq, bool_decide_eq_false_2 by done.
  rewrite for_patients_float; [done| |].
  - intros Hnil.
    pose proof (group_of_in_groups cell_year sort_values_year
                  sort_values_year_perm df_events label_to_id min_year max_year
                  pid Y HY) as Hin.
    rewrite Hnil in Hin. by apply elem_of_nil in Hin.
  - intros pid' g Hg. eapply group_years_nonempty; [done|].
    intros r. rewrite sort_values_year_perm, list_elem_of_fmap.
    intros (ev & -> & [(y & Hy & _)%year_in_range_iff _]%list_elem_of_filter).
    by exists y.
Qed.

(** X13. The order of the cut-offs is not checked. With
    [val_until <= train_until] the builder still returns: the validation
    set is empty, and every row with
    [val_until < target_year <= train_until] is in the training set and in
    the test set at once. *)
Theorem misordered_cutoffs (G : Globals) (df_events : list Event)
    (label_to_id : gmap string Z) (H min_year max_year : Z)
    (rows : list SeqRow) (t v : Z) :
  train_until G = Some t -> val_until G = Some v -> v <= t ->
  emitted_rows cell_year sort_values_year df_events label_to_id H min_year max_year
  = Ok rows ->
  rows <> [] ->
  exists train val test,
    build_yearly_sequences cell_year sort_values_year G df_events label_to_id
      H min_year max_year = Ok (train, val, test) /\
    records val = [] /\
    (forall e, e ∈ rows -> v < target_year e <= t ->
               e ∈ records train /\ e ∈ records test).
Proof.
  intros Ht Hv Hvt Hrows Hne.
  destruct (build_yearly_sequences_split cell_year sort_values_year G df_events
              label_to_id H min_year max_year rows t v)
    as (train & val & test & Hrun & Htr & Hva & Hte); [done..|].
  exists train, val, test. split; [done|]. split.
  - rewrite Hva. apply elem_of_nil_inv. intros e [Hp _]%list_elem_of_filter. lia.
  - intros e He Hy. rewrite Htr, Hte, !list_elem_of_filter.
    split; (split; [lia|done]).
Qed.

End SequenceFurther.

Section ReturnedFrames.

Variable cell_year : string -> option Z.
Variable sort_values_year : list Row -> list Row.

(** X8. What the builder returns is what its loops emitted, and nothing
    else: each returned frame has the five columns of the rows and holds
    emitted rows in the order of their emission, and every emitted row is
    in at least one of the three frames, whatever the order of the
    cut-offs. *)
Theorem returned_frames (G : Globals) (df_events : list Event)
    (label_to_id : gmap string Z) (H min_year max_year : Z)
    (train val test : DataFrame) :
  build_yearly_sequences cell_year sort_values_year G df_events label_to_id
    H min_year max_year = Ok (train, val, test) ->
  exists rows,
    emitted_rows cell_year sort_values_year df_events label_to_id H min_year max_year
    = Ok rows /\
    records train `sublist_of` rows /\ records val `sublist_of` rows /\
    records test `sublist_of` rows /\
    (forall e, e ∈ rows ->
       e ∈ records train \/ e ∈ records val \/ e ∈ records test) /\
    Forall (fun frame => columns frame =
              ["patient_id"; "target_year"; "hist_years"; "hist_codes";
               "target_multi_hot"])
           [train; val; test].
Proof.
  intros Hrun.
  destruct (emitted_rows cell_year sort_values_year df_events label_to_id
              H min_year max_year) as [rows|] eqn:Hrows;
    [|unfold build_yearly_sequences in Hrun; by rewrite Hrows in Hrun].
  exists rows. split; [done|].
  destruct (decide (rows = [])) as [->|Hne];
    [by rewrite no_rows_KeyError in Hrun|].
  unfold build_yearly_sequences in Hrun. rewrite Hrows in Hrun.
  unfold mbind, result_bind, global_name in Hrun.
  rewrite (getitem_target_year_rows rows Hne) in Hrun.
  destruct (train_until G) as [t|]; [|done].
  destruct (val_until G) as [v|]; [|done].
  injection Hrun as <- <- <-.
  rewrite zip_with_andb_fmap, !getitem_mask_filter.
  split; [apply sublist_filter|]. split; [apply sublist_filter|].
  split; [apply sublist_filter|]. split.
  - intros e He. rewrite !list_elem_of_filter.
    destruct (decide (target_year e <= t));
      [left; split; [by apply bool_decide_eq_true|done]|].
    destruct (decide (target_year e <= v)).
    + right; left. split; [|done].
      apply andb_true_iff. rewrite !bool_decide_eq_true. lia.
    + right; right. split; [|done]. apply bool_decide_eq_true. lia.
  - destruct rows; [done|]. by repeat constructor.
Qed.

End ReturnedFrames.

Lemma returned_frames_witness :
  (exists train val test,
     build_yearly_sequences iso_year merge_sort_year demo_globals demo_events
       demo_vocab 2 2017 2020 = Ok (train, val, test) /\
     records val `sublist_of` demo_rows).
Proof.
  destruct build_yearly_sequences_demo as [cols Hrun].
  eexists _, _, _. split; [exact Hrun|].
  destruct (returned_frames iso_year merge_sort_year _ _ _ _ _ _ _ _ _ Hrun)
    as (rows & Hrows & _ & Hval & _).
  rewrite emitted_rows_demo in Hrows. injection Hrows as <-. exact Hval.
Defined.

Lemma build_yearly_sequences_outcomes_witness :
  emitted_rows iso_year merge_sort_year demo_events demo_vocab 2 2017 2020
  = Ok demo_rows /\
  build_yearly_sequences iso_year merge_sort_year
    {| train_until := Some 2018; val_until := None |} demo_events demo_vocab
    2 2017 2020
  = Raise (NameError "val_until").
Proof.
  split; [exact emitted_rows_demo|].
  refine (proj2 (proj2 (proj2 (proj2 (build_yearly_sequences_outcomes iso_year
            merge_sort_year {| train_until := Some 2018; val_until := None |}
            demo_events demo_vocab 2 2017 2020))) demo_rows emitted_rows_demo _)
            _ eq_refl); [done|by eexists].
Defined.

Lemma emitted_rows_ordered_witness :
  emitted_rows iso_year merge_sort_year demo_events demo_vocab 2 2017 2020
  = Ok demo_rows /\
  NoDup (seq_key <$> demo_rows).
Proof.
  split; [exact emitted_rows_demo|].
  exact (proj1 (emitted_rows_ordered iso_year merge_sort_year demo_events
                  demo_vocab 2 2017 2020 demo_rows emitted_rows_demo)).
Defined.

Lemma empty_vocabulary_returns_witness :
  (1 <= 2 /\ dates_parse iso_year demo_events /\
   candidate iso_year demo_events 2017 2020 "P" 2019 /\ 2017 <= 2019 - 2) /\
  exists train val test,
    build_yearly_sequences iso_year merge_sort_year demo_globals demo_events ∅
      2 2017 2020 = Ok (train, val, test) /\
    forall e, e ∈ records train ++ records val ++ records test ->
              target_multi_hot e = [].
Proof.
  split.
  { split; [lia|]. split; [exact demo_dates_parse|].
    split; [exact demo_candidate_P_2019|lia]. }
  apply (empty_vocabulary_returns iso_year merge_sort_year merge_sort_year_perm
           demo_globals demo_events 2 2017 2020 "P" 2019);
    [lia|exact demo_dates_parse|by eexists|by eexists
    |exact demo_candidate_P_2019|lia].
Defined.

Lemma demo_candidate_P_2020 : candidate iso_year demo_events 2017 2020 "P" 2020.
Proof.
  exists (ev_ "P" "2020-02-01" "Z"). split; [left|]. repeat split; lia.
Qed.

Lemma demo_had_code_P_2020_Z : had_code iso_year demo_events "P" 2020 "Z".
Proof. unfold had_code. vm_compute. left. Qed.

Lemma vocabulary_index_bounds_witness :
  (1 <= 2 /\ dates_parse iso_year demo_events /\
   candidate iso_year demo_events 2017 2020 "P" 2020 /\ 2017 <= 2020 - 2 /\
   had_code iso_year demo_events "P" 2020 "Z" /\
   ({[ "Z" := 1 ]} : gmap string Z) !! "Z" = Some 1) /\
  emitted_rows iso_year merge_sort_year demo_events {[ "Z" := 1 ]} 2 2017 2020
  = Raise (IndexError "list assignment index out of range").
Proof.
  assert (({[ "Z" := 1 ]} : gmap string Z) !! "Z" = Some 1) as Hz
    by apply lookup_singleton_eq.
  split.
  { split; [lia|]. split; [exact demo_dates_parse|].
    split; [exact demo_candidate_P_2020|]. split; [lia|].
    split; [exact demo_had_code_P_2020_Z|exact Hz]. }
  apply (proj2 (vocabulary_index_bounds iso_year merge_sort_year
                  merge_sort_year_perm demo_events {[ "Z" := 1 ]} 2 2017 2020
                  ltac:(lia) demo_dates_parse)
           "P" 2020 "Z" 1 demo_candidate_P_2020 ltac:(lia)
           demo_had_code_P_2020_Z Hz).
  rewrite map_size_singleton. lia.
Defined.

Lemma unparsed_date_raises_witness :
  (~ dates_parse iso_year (demo_events ++ [ev_ "R" "NaT" "Z"]) /\
   candidate iso_year (demo_events ++ [ev_ "R" "NaT" "Z"]) 2017 2020 "P" 2020) /\
  build_yearly_sequences iso_year merge_sort_year demo_globals
    (demo_events ++ [ev_ "R" "NaT" "Z"]) demo_vocab 2 2017 2020
  = Raise (TypeError "'float' object cannot be interpreted as an integer").
Proof.
  assert (~ dates_parse iso_year (demo_events ++ [ev_ "R" "NaT" "Z"])) as Hbad.
  { intros Hd. apply Forall_app in Hd as [_ Hd].
    apply Forall_cons in Hd as [[y Hy] _]. by vm_compute in Hy. }
  assert (candidate iso_year (demo_events ++ [ev_ "R" "NaT" "Z"]) 2017 2020
            "P" 2020) as Hc.
  { exists (ev_ "P" "2020-02-01" "Z"). split; [left|]. repeat split; lia. }
  split; [by split|].
  exact (unparsed_date_raises iso_year merge_sort_year merge_sort_year_perm
           demo_globals _ demo_vocab 2 2017 2020 "P" 2020 Hbad Hc).
Defined.

Lemma misordered_cutoffs_witness :
  (2019 <= 2019 /\
   emitted_rows iso_year merge_sort_year demo_events demo_vocab 2 2017 2020
   = Ok demo_rows /\ demo_rows <> []) /\
  exists train val test,
    build_yearly_sequences iso_year merge_sort_year
      {| train_until := Some 2019; val_until := Some 2019 |} demo_events
      demo_vocab 2 2017 2020 = Ok (train, val, test) /\
    records val = [].
Proof.
  split; [split; [lia|split; [exact emitted_rows_demo|done]]|].
  destruct (misordered_cutoffs iso_year merge_sort_year
              {| train_until := Some 2019; val_until := Some 2019 |}
              demo_events demo_vocab 2 2017 2020 demo_rows 2019 2019)
    as (train & val & test & Hrun & Hval & _);
    [done|done|lia|exact emitted_rows_demo|done|].
  by exists train, val, test.
Defined.

(** ** The vocabulary builder and the sequence builder together *)

Section Pipeline.

Variable cell_year : string -> option Z.
Variable sort_values_year : list Row -> list Row.
Hypothesis sort_values_year_perm : forall df, sort_values_year df ≡ₚ df.
Variable sort_values_desc : list (string * Z) -> list (string * Z).
Hypothesis sort_values_desc_perm : forall l, sort_values_desc l ≡ₚ l.

(** X15. A vocabulary made by [build_label_vocab], from any table and with
    any threshold and cap, is one the sequence builder gets through: its
    indices lie in [0, K), so with a history length of at least one and
    dates that parse, line 70 never raises and the loops end, each emitted
    vector having one position per code of the vocabulary. *)
Theorem built_vocabulary_fits_builder (vocab_events df_events : list Event)
    (min_patients : Z) (top_k : option Z) (H min_year max_year : Z) :
  let vocab := build_label_vocab sort_values_desc vocab_events min_patients top_k in
  vocab_wf vocab /\
  (1 <= H -> dates_parse cell_year df_events ->
   exists rows,
     emitted_rows cell_year sort_values_year df_events vocab H min_year max_year
     = Ok rows /\
     forall e, e ∈ rows ->
       length (target_multi_hot e)
       = length (retained_codes sort_values_desc vocab_events min_patients top_k)).
Proof using sort_values_year_perm sort_values_desc_perm.
  intros vocab.
  pose proof (retained_codes_NoDup sort_values_desc sort_values_desc_perm
                vocab_events min_patients top_k) as Hnd.
  destruct (dict_of_enumerate_spec _ Hnd) as [Hsize Hlook].
  fold (build_label_vocab sort_values_desc vocab_events min_patients top_k)
    in Hsize, Hlook.
  fold vocab in Hsize, Hlook.
  assert (vocab_wf vocab) as Hwf.
  { intros c i (n & Hn & ->)%Hlook. apply lookup_lt_Some in Hn. lia. }
  split; [done|]. intros HH Hdates.
  destruct (emitted_rows_total cell_year sort_values_year sort_values_year_perm
              df_events vocab H min_year max_year) as [rows Hrows]; [done..|].
  exists rows. split; [done|]. intros e He.
  apply emitted_rows_Ok in Hrows as [Hmem _]; [|done].
  apply Hmem in He as (? & ? & _ & _ & mh & Hmh & ->). simpl.
  apply set_targets_Ok in Hmh as [-> _]. by rewrite length_replicate.
Qed.

End Pipeline.

Lemma built_vocabulary_fits_builder_witness :
  ((forall df, merge_sort_year df ≡ₚ df) /\
   (forall l, merge_sort_desc l ≡ₚ l)) /\
  vocab_wf (build_label_vocab merge_sort_desc demo_events 1 (Some 2)).
Proof.
  split; [split; [exact merge_sort_year_perm|exact merge_sort_desc_perm]|].
  exact (proj1 (built_vocabulary_fits_builder iso_year merge_sort_year
                  merge_sort_year_perm merge_sort_desc merge_sort_desc_perm
                  demo_events demo_events 1 (Some 2) 2 2017 2020)).
Defined.

(** ** The conversion script *)



Lemma require_columns_unit table required columns :
  (exists u, Mimic.require_columns table required columns = Ok u) <->
  Mimic.require_columns table required columns = Ok ().
Proof. split; [by intros [[] ?]|by exists ()]. Qed.

Lemma drop_duplicates_sublist rows : Mimic.drop_duplicates rows `sublist_of` rows.
Proof.
  induction rows as [|e rows IH]; simpl; [done|].
  constructor. etrans; [apply sublist_filter|done].
Qed.

Lemma drop_duplicates_keys rows :
  NoDup (Mimic.row_key <$> Mimic.drop_duplicates rows) /\
  forall e, e ∈ rows ->
    exists e', e' ∈ Mimic.drop_duplicates rows /\ Mimic.row_key e' = Mimic.row_key e.
Proof.
  induction rows as [|e0 rows [IHnd IHin]]; cbn [Mimic.drop_duplicates].
  { split; [constructor|]. intros e He. by apply elem_of_nil in He. }
  split.
  - rewrite fmap_cons. constructor.
    + intros (e & He & [Hne _]%list_elem_of_filter)%list_elem_of_fmap. congruence.
    + eapply sublist_NoDup; [exact IHnd|]. apply fmap_sublist, sublist_filter.
  - intros e [->|He]%elem_of_cons; [exists e0; split; [by left|done]|].
    destruct (IHin e He) as (e' & He' & Hk).
    destruct (decide (Mimic.row_key e' = Mimic.row_key e0)) as [Heq|Hne].
    + exists e0. split; [by left|congruence].
    + exists e'. split; [right; by apply list_elem_of_filter|done].
Qed.

Lemma elem_of_zip_fmap {A B C} (f : A -> C) (m : list A) : forall (D : list B) r d c,
  (r, (d, c)) ∈ zip m (zip D (f <$> m)) -> r ∈ m /\ c = f r.
Proof.
  induction m as [|x m IH]; intros D r d c Hin; csimpl in Hin.
  { by apply elem_of_nil in Hin. }
  destruct D as [|d0 D]; csimpl in Hin; [by apply elem_of_nil in Hin|].
  apply elem_of_cons in Hin as [[= -> -> ->]|Hin]; [split; [by left|done]|].
  apply IH in Hin as [? ?]. split; [by right|done].
Qed.

Lemma zip_fmap_complete {A B C} (f : A -> C) (m : list A) : forall (D : list B) r,
  length D = length m -> r ∈ m -> exists d, (r, (d, f r)) ∈ zip m (zip D (f <$> m)).
Proof.
  induction m as [|x m IH]; intros D r Hlen Hin; [by apply elem_of_nil in Hin|].
  destruct D as [|d0 D]; [done|]. csimpl.
  apply elem_of_cons in Hin as [->|Hin].
  - exists d0. by left.
  - destruct (IH D r) as [d Hd]; [simpl in Hlen; lia|done|].
    exists d. by right.
Qed.

Section ScriptProps.

Variable upper_cp : N -> list N.
Variable lower : string -> string.
Variable date_strings : list pyobj -> list string.


(** Unicode's upper-case mapping never yields an ASCII small letter. *)
Hypothesis upper_no_small :
  forall c d, In d (upper_cp c) -> ((97 <=? d) && (d <=? 122))%N = false.

(** X17. Every event [mimic3_to_events] returns has a code that is not
    empty, is made of capital letters, digits and dots, has no dot unless
    [keep_dots] is set, and is [norm_code] of the [icd9_code] of a row of
    the merged frame, a string, whose subject and admission it carries; its
    coding system is ICD9. A row whose code is missing or cleans to nothing
    gives no event. *)
Theorem mimic3_events_codes (d_columns a_columns : list string)
    (m : list Mimic.MergedRow) (keep_dots : bool) (events : list Mimic.EventRow)
    (e : Mimic.EventRow) :
  Mimic.mimic3_to_events upper_cp lower date_strings d_columns a_columns m keep_dots
  = Ok events ->
  e ∈ events ->
  Mimic.code e <> [] /\
  Forall (fun c => class_AZ09dot c = true) (Mimic.code e) /\
  (keep_dots = false -> ~ In 46%N (Mimic.code e)) /\
  Mimic.coding_system e = "ICD9" /\
  exists r, r ∈ m /\
    Mimic.patient_id e = Mimic.subject_id r /\
    Mimic.visit_id e = Mimic.hadm_id r /\
    isinstance_str (Mimic.icd9_code r) = true /\
    Mimic.code e = norm_code upper_cp (Mimic.icd9_code r) (negb keep_dots).
Proof using upper_no_small.
  unfold Mimic.mimic3_to_events. intros Hrun He.
  destruct (Mimic.require_columns "diagnoses" _ _) as [[]|]; [|done].
  destruct (Mimic.require_columns "admissions" _ _) as [[]|]; [|done].
  injection Hrun as <-. unfold Mimic.events_of_merged in He.
  eapply elem_of_sublist in He; [|apply drop_duplicates_sublist].
  apply list_elem_of_fmap in He as ([r [d c]] & -> & [Hne Hin]%list_elem_of_filter).
  simpl in *. rewrite <- list_fmap_compose in Hin.
  apply elem_of_zip_fmap in Hin as [Hr ->]. simpl.
  split; [done|]. split; [apply norm_code_class, upper_no_small|].
  split; [|split; [done|]].
  - intros ->. simpl. destruct (Mimic.icd9_code r); simpl; [|intros []..].
    intros [_ H]%List.filter_In. by vm_compute in H.
  - exists r. repeat split; try done.
    unfold compose in Hne.
    destruct (Mimic.icd9_code r); [done|exfalso; by apply Hne..].
Qed.

(** The date column has one entry per row of the frame. *)
Hypothesis date_strings_length :
  forall col, length (date_strings col) = length col.

(** X18. [mimic3_to_events] returns no row twice, missing identifiers
    counting as equal, and loses no diagnosis: for every row of the merged
    frame whose code cleans to a non-empty string there is a returned event
    with that subject, that admission and that cleaned code. *)
Theorem mimic3_events_distinct_and_complete (d_columns a_columns : list string)
    (m : list Mimic.MergedRow) (keep_dots : bool) (events : list Mimic.EventRow) :
  Mimic.mimic3_to_events upper_cp lower date_strings d_columns a_columns m keep_dots
  = Ok events ->
  NoDup (Mimic.row_key <$> events) /\
  forall r, r ∈ m ->
    norm_code upper_cp (Mimic.icd9_code r) (negb keep_dots) <> [] ->
    exists e, e ∈ events /\
      Mimic.na_key (Mimic.patient_id e) = Mimic.na_key (Mimic.subject_id r) /\
      Mimic.na_key (Mimic.visit_id e) = Mimic.na_key (Mimic.hadm_id r) /\
      Mimic.code e = norm_code upper_cp (Mimic.icd9_code r) (negb keep_dots).
Proof using date_strings_length.
  unfold Mimic.mimic3_to_events. intros Hrun.
  destruct (Mimic.require_columns "diagnoses" _ _) as [[]|]; [|done].
  destruct (Mimic.require_columns "admissions" _ _) as [[]|]; [|done].
  injection Hrun as <-. unfold Mimic.events_of_merged.
  split; [apply drop_duplicates_keys|].
  intros r Hr Hne. rewrite <- list_fmap_compose.
  destruct (zip_fmap_complete
              (fun r => norm_code upper_cp (Mimic.icd9_code r) (negb keep_dots))
              m (date_strings (Mimic.admittime <$> m)) r) as [d Hd]; [|done|].
  { by rewrite date_strings_length, length_fmap. }
  match goal with |- context [Mimic.drop_duplicates ?l] =>
    destruct (proj2 (drop_duplicates_keys l)
                {| Mimic.patient_id := Mimic.subject_id r;
                   Mimic.visit_id := Mimic.hadm_id r;
                   Mimic.visit_date := d;
                   Mimic.code := norm_code upper_cp (Mimic.icd9_code r) (negb keep_dots);
                   Mimic.coding_system := "ICD9" |}) as (e & He & Hk)
  end.
  { apply list_elem_of_fmap. eexists (r, (d, _)). split; [done|].
    apply list_elem_of_filter. split; [done|exact Hd]. }
  exists e. split; [done|]. unfold Mimic.row_key in Hk. simpl in Hk.
  by injection Hk as -> -> _ -> _.
Qed.

End ScriptProps.

Lemma iso_date_strings_length col : length (iso_date_strings col) = length col.
Proof. apply length_fmap. Qed.

(** The script on the small frame: the dotted and the dotless spelling of
    one code clean to the same event, and the row without a code is
    dropped. *)
Example mimic3_to_events_demo :
  Mimic.mimic3_to_events ascii_upper_cp ascii_lower iso_date_strings
    ["SUBJECT_ID"; "HADM_ID"; "SEQ_NUM"; "ICD9_CODE"] ["HADM_ID"; "ADMITTIME"]
    demo_merged false
  = Ok [demo_event "25000"; demo_event "V4581"].
Proof. vm_compute. reflexivity. Qed.


Lemma mimic3_events_codes_witness :
  ((forall c d, In d (ascii_upper_cp c) -> ((97 <=? d) && (d <=? 122))%N = false) /\
   Mimic.mimic3_to_events ascii_upper_cp ascii_lower iso_date_strings
     ["SUBJECT_ID"; "HADM_ID"; "SEQ_NUM"; "ICD9_CODE"] ["HADM_ID"; "ADMITTIME"]
     demo_merged false
   = Ok [demo_event "25000"; demo_event "V4581"] /\
   demo_event "V4581" ∈ [demo_event "25000"; demo_event "V4581"]) /\
  Mimic.code (demo_event "V4581") <> [] /\
  Forall (fun c => class_AZ09dot c = true) (Mimic.code (demo_event "V4581")).
Proof.
  assert (demo_event "V4581" ∈ [demo_event "25000"; demo_event "V4581"]) as Hin
    by (right; left).
  split; [split; [exact ascii_upper_no_small|split; [exact mimic3_to_events_demo|exact Hin]]|].
  destruct (mimic3_events_codes ascii_upper_cp ascii_lower iso_date_strings
              ascii_upper_no_small _ _ _ _ _ _ mimic3_to_events_demo Hin)
    as (Hne & Hcls & _).
  by split.
Defined.

Lemma mimic3_events_distinct_and_complete_witness :
  ((forall col, length (iso_date_strings col) = length col) /\
   Mimic.mimic3_to_events ascii_upper_cp ascii_lower iso_date_strings
     ["SUBJECT_ID"; "HADM_ID"; "SEQ_NUM"; "ICD9_CODE"] ["HADM_ID"; "ADMITTIME"]
     demo_merged false
   = Ok [demo_event "25000"; demo_event "V4581"]) /\
  NoDup (Mimic.row_key <$> [demo_event "25000"; demo_event "V4581"]).
Proof.
  split; [split; [exact iso_date_strings_length|exact mimic3_to_events_demo]|].
  exact (proj1 (mimic3_events_distinct_and_complete ascii_upper_cp ascii_lower
                  iso_date_strings iso_date_strings_length _ _ _ _ _
                  mimic3_to_events_demo)).
Defined.

(** ** Where the code departs from the specification *)

Section Departures.

Variable cell_year : string -> option Z.
Variable sort_values_year : list Row -> list Row.
Hypothesis sort_values_year_perm : forall df, sort_values_year df ≡ₚ df.

(** C1, on the code. The window rule does not hold of every table: as soon
    as one date of the table does not parse, be it of another patient, a
    candidate (patient, Y) with its full window inside the valid range,
    [Y - H >= min_year], gets no example. Line 55 raises [TypeError] on the
    first year of the first patient, so the loops emit nothing and the
    builder returns nothing, although line 45 reads the dates with
    [errors="coerce"] and line 46 is there to drop the rows without a
    year. *)
Theorem unparsed_date_blocks_window_rule (G : Globals) (df_events : list Event)
    (label_to_id : gmap string Z) (H min_year max_year : Z) (pid : string) (Y : Z) :
  ~ dates_parse cell_year df_events ->
  candidate cell_year df_events min_year max_year pid Y ->
  min_year <= Y - H ->
  emitted_rows cell_year sort_values_year df_events label_to_id H min_year max_year
  = Raise (TypeError "'float' object cannot be interpreted as an integer") /\
  build_yearly_sequences cell_year sort_values_year G df_events label_to_id
    H min_year max_year
  = Raise (TypeError "'float' object cannot be interpreted as an integer") /\
  ~ (exists rows e,
       emitted_rows cell_year sort_values_year df_events label_to_id
         H min_year max_year = Ok rows /\
       e ∈ rows /\ seq_patient_id e = pid /\ target_year e = Y).
Proof using sort_values_year_perm.
  intros Hdates HY _.
  assert (emitted_rows cell_year sort_values_year df_events label_to_id
            H min_year max_year
          = Raise (TypeError "'float' object cannot be interpreted as an integer"))
    as Hrows.
  { unfold emitted_rows.
    rewrite working_frame_eq, bool_decide_eq_false_2 by done.
    apply for_patients_float.
    - intros Hnil.
      pose proof (group_of_in_groups cell_year sort_values_year
                    sort_values_year_perm df_events label_to_id min_year max_year
                    pid Y HY) as Hin.
      rewrite Hnil in Hin. by apply elem_of_nil in Hin.
    - intros pid' g Hg. eapply group_years_nonempty; [done|].
      intros r. rewrite sort_values_year_perm, list_elem_of_fmap.
      intros (ev & -> & [(y & Hy & _)%year_in_range_iff _]%list_elem_of_filter).
      by exists y. }
  split; [done|]. split.
  - unfold build_yearly_sequences. by rewrite Hrows.
  - intros (rows & e & Hok & _). congruence.
Qed.

(** C2, on the code. The cut-offs are not parameters of the function,
    whatever its docstring says, and the module binds neither of them: as
    the repository has it, the builder never returns the three sets. When
    the loops have emitted a row, line 83 raises [NameError] on
    [train_until]; when they have not, it raises [KeyError]; and an
    exception of the loops goes through. *)
Theorem shipped_cutoffs_unbound (df_events : list Event)
    (label_to_id : gmap string Z) (H min_year max_year : Z) :
  let run := build_yearly_sequences cell_year sort_values_year shipped_globals
               df_events label_to_id H min_year max_year in
  (forall rows,
     emitted_rows cell_year sort_values_year df_events label_to_id
       H min_year max_year = Ok rows ->
     rows <> [] -> run = Raise (NameError "train_until")) /\
  (forall train val test, run <> Ok (train, val, test)).
Proof.
  intros run.
  assert (forall rows,
     emitted_rows cell_year sort_values_year df_events label_to_id
       H min_year max_year = Ok rows ->
     rows <> [] -> run = Raise (NameError "train_until")) as Hname.
  { intros rows Hrows Hne. subst run. unfold build_yearly_sequences.
    rewrite Hrows. unfold mbind, result_bind, global_name.
    by rewrite (getitem_target_year_rows rows Hne). }
  split; [done|]. intros train val test Hrun.
  destruct (emitted_rows cell_year sort_values_year df_events label_to_id
              H min_year max_year) as [rows|e] eqn:Hrows.
  - destruct (decide (rows = [])) as [->|Hne].
    + subst run. by rewrite no_rows_KeyError in Hrun.
    + by rewrite (Hname rows eq_refl Hne) in Hrun.
  - subst run. unfold build_yearly_sequences in Hrun. by rewrite Hrows in Hrun.
Qed.

End Departures.

Lemma unparsed_date_blocks_window_rule_witness :
  (~ dates_parse iso_year demo_events_unparsed /\
   candidate iso_year demo_events_unparsed 2017 2020 "P" 2020 /\
   2017 <= 2020 - 2) /\
  emitted_rows iso_year merge_sort_year demo_events_unparsed demo_vocab 2 2017 2020
  = Raise (TypeError "'float' object cannot be interpreted as an integer").
Proof.
  assert (~ dates_parse iso_year demo_events_unparsed) as Hbad.
  { intros Hd. apply Forall_app in Hd as [_ Hd].
    apply Forall_cons in Hd as [[y Hy] _]. by vm_compute in Hy. }
  assert (candidate iso_year demo_events_unparsed 2017 2020 "P" 2020) as Hc.
  { exists (ev_ "P" "2020-02-01" "Z"). split; [left|]. repeat split; lia. }
  split; [split; [exact Hbad|split; [exact Hc|lia]]|].
  exact (proj1 (unparsed_date_blocks_window_rule iso_year merge_sort_year
                  merge_sort_year_perm demo_globals demo_events_unparsed
                  demo_vocab 2 2017 2020 "P" 2020 Hbad Hc ltac:(lia))).
Defined.

Lemma shipped_cutoffs_unbound_witness :
  (emitted_rows iso_year merge_sort_year demo_events demo_vocab 2 2017 2020
   = Ok demo_rows /\ demo_rows <> []) /\
  build_yearly_sequences iso_year merge_sort_year shipped_globals demo_events
    demo_vocab 2 2017 2020
  = Raise (NameError "train_until").
Proof.
  split; [split; [exact emitted_rows_demo|done]|].
  refine (proj1 (shipped_cutoffs_unbound iso_year merge_sort_year demo_events
                   demo_vocab 2 2017 2020) demo_rows emitted_rows_demo _).
  done.
Defined.
